(** * A shallow embedding of the ppg-processor signal-to-metrics pipeline

    Sources embedded here:
    - [ppg_processor/processing/hrv_metrics.py]: [calculate_metrics],
      [calculate_hrv_metrics] (the windowed HRV scan), and the helpers
      [calculate_ppi] and [clean_ppi_data];
    - [ppg_processor/processing/file_worker.py]: the PPI computation and
      outlier cleaning of [PPGProcessingWorker.run];
    - [ppg_processor/processing/directory_worker.py]: the time-of-day range
      filter, the folder selection and the folder loop of
      [_process_directory];
    - [ppg_processor/processing/batch_worker.py]: the participant loop and
      [_process_participant];
    - [ppg_processor/utils/io_utils.py]: [read_ppg_file] and
      [is_incrementing_sequence].

    Conventions.  In the HRV and PPI code a pandas timestamp is an
    integer number of milliseconds since the epoch ([Z]) and a
    [timedelta] a number of milliseconds.  In [read_ppg_file] a
    timestamp is pandas' [int64] count of nanoseconds, [None] standing
    for [NaT], and the float64 arithmetic of numpy and pandas is Rocq's
    primitive binary64 [float].  The floating-point metric values of
    numpy are modelled by real numbers, and numpy's [nan] by the
    constructor [NaN] of [num]. *)

From Stdlib Require Import String.
From Stdlib Require Import ZArith Lia List Bool Reals Lra Sorting.Sorted
  Sorting.Permutation.
From Stdlib Require Floats.
Import ListNotations.

Open Scope Z_scope.

(** ** Numeric values with numpy's [nan] *)

Inductive num : Type :=
| Val (r : R)
| NaN.

(** ** numpy reductions used by [calculate_metrics] *)

Module Np.

Local Open Scope R_scope.

(** [np.sum] in exact real arithmetic: the metric values below are the
    exact ones, of which numpy's float64 results are the roundings. *)
Fixpoint sum (xs : list R) : R :=
  match xs with
  | [] => 0
  | x :: t => x + sum t
  end.

(** [np.mean] *)
Definition mean (xs : list R) : R := sum xs / INR (length xs).

(** [np.diff]: [out[i] = a[i+1] - a[i]] *)
Fixpoint diff (xs : list R) : list R :=
  match xs with
  | x :: (y :: _) as t => (y - x) :: diff t
  | _ => []
  end.

(** [np.std(a, ddof=1)] *)
Definition std_ddof1 (xs : list R) : R :=
  let m := mean xs in
  sqrt (sum (map (fun x => (x - m) ^ 2) xs) / (INR (length xs) - 1)).

(** [np.std(a, ddof=1)] as a number: [nan] when the array has at most
    one value (the divisor [len(a) - 1] is then [0]). *)
Definition std_num (xs : list R) : num :=
  if (length xs <=? 1)%nat then NaN else Val (std_ddof1 xs).

(** [np.mean] as a number: [nan] on an empty array. *)
Definition mean_num (xs : list R) : num :=
  match xs with
  | [] => NaN
  | _ => Val (mean xs)
  end.

(** [a ** 2], element-wise *)
Definition sq (xs : list R) : list R := map (fun x => x ^ 2) xs.

(** Ascending sort used by [np.median]. *)
Fixpoint insert (x : R) (xs : list R) : list R :=
  match xs with
  | [] => [x]
  | y :: t => if Rle_dec x y then x :: y :: t else y :: insert x t
  end.

Fixpoint sort (xs : list R) : list R :=
  match xs with
  | [] => []
  | x :: t => insert x (sort t)
  end.

(** [np.median]: middle element of the sorted array, or the mean of the
    two middle elements when the length is even. *)
Definition median (xs : list R) : R :=
  let s := sort xs in
  let n := length s in
  if Nat.even n
  then (nth (Nat.pred (n / 2)) s 0 + nth (n / 2) s 0) / 2
  else nth (n / 2) s 0.

End Np.

(** ** [calculate_metrics] (hrv_metrics.py) *)

Record metrics : Type := mkMetrics {
  MeanNN : num;
  SDNN : num;
  RMSSD : num;
  SDSD : num;
  CVNN : num;
  CVSD : num;
  MedianNN : num;
  Num_Data_Points : nat;
  Mean_Quality : num
}.

Definition calculate_metrics (ppi_data quality_data : list R) : metrics :=
  if (length ppi_data <? 2)%nat then
    mkMetrics NaN NaN NaN NaN NaN NaN NaN (length ppi_data) NaN
  else
    let mean_nn := Np.mean ppi_data in
    let sdnn := Np.std_ddof1 ppi_data in
    let rmssd := sqrt (Np.mean (Np.sq (Np.diff ppi_data))) in
    let sdsd := Np.std_num (Np.diff ppi_data) in
    mkMetrics (Val mean_nn) (Val sdnn) (Val rmssd) sdsd
      (if Req_EM_T mean_nn 0 then NaN else Val (sdnn / mean_nn))
      (if Req_EM_T mean_nn 0 then NaN else Val (rmssd / mean_nn))
      (Val (Np.median ppi_data))
      (length ppi_data)
      (Np.mean_num quality_data).

(** ** [calculate_hrv_metrics] (hrv_metrics.py) *)

(** One row of the input frame: columns [Time], [PPI], [Quality]. *)
Record row : Type := mkRow {
  Time : Z;
  PPI : R;
  Quality : R
}.

(** One row of the output frame: the metrics dict plus [Start_Time] and
    [End_Time]. *)
Record hrv_row : Type := mkHrvRow {
  hrv_metrics : metrics;
  Start_Time : Z;
  End_Time : Z
}.

(** [timedelta(minutes=m)] in milliseconds. *)
Definition minutes (m : Z) : Z := m * 60000.

(** The three [if len(current_bin) > 1: ... hrv_results.append(metrics)]
    blocks of the scan. *)
Definition close_bin (current_bin : list row) (current_start_time : Z)
    (hrv_results : list hrv_row) : list hrv_row :=
  match current_bin with
  | r0 :: _ =>
      if (1 <? length current_bin)%nat then
        hrv_results ++
          [mkHrvRow (calculate_metrics (map PPI current_bin)
                                       (map Quality current_bin))
                    current_start_time
                    (Time (last current_bin r0))]
      else hrv_results
  | [] => hrv_results
  end.

(** Loop state: [hrv_results], [current_bin], [current_start_time]. *)
Definition scan_state : Type := (list hrv_row * list row * option Z)%type.

(** One iteration of [for i, row in data.iterrows()]. *)
Definition scan_step (window : Z) (st : scan_state) (r : row) : scan_state :=
  let '(hrv_results, current_bin, cst) := st in
  let current_start_time :=
    match cst with Some s => s | None => Time r end in
  if Time r - current_start_time <=? minutes window then
    match current_bin with
    | b0 :: _ =>
        if Time r - Time (last current_bin b0) >? minutes 1 then
          (close_bin current_bin current_start_time hrv_results,
           [r], Some (Time r))
        else (hrv_results, current_bin ++ [r], Some current_start_time)
    | [] => (hrv_results, current_bin ++ [r], Some current_start_time)
    end
  else
    (close_bin current_bin current_start_time hrv_results,
     [r], Some (Time r)).

Definition calculate_hrv_metrics (data : list row) (window : Z)
    : list hrv_row :=
  let '(hrv_results, current_bin, cst) :=
    fold_left (scan_step window) data ([], [], None) in
  match cst with
  | Some s => close_bin current_bin s hrv_results
  | None => hrv_results
  end.

(** The row [calculate_hrv_metrics] emits for a closed bin [h :: t]:
    metrics of the bin, its first and its last timestamp. *)
Definition emitted (h : row) (t : list row) : hrv_row :=
  mkHrvRow (calculate_metrics (map PPI (h :: t)) (map Quality (h :: t)))
           (Time h) (Time (last (h :: t) h)).

(** Consecutive emitted windows are separated: each one ends strictly
    before the next one starts. *)
Fixpoint separated (ws : list hrv_row) : Prop :=
  match ws with
  | w1 :: ((w2 :: _) as t) => End_Time w1 < Start_Time w2 /\ separated t
  | _ => True
  end.

(** ** Time-of-day range filter (directory_worker.py, [_process_directory]) *)

Module TimeRange.

(** One day and [datetime.timedelta(hours=12)], in milliseconds. *)
Definition day_ms : Z := 86400000.
Definition delta_time : Z := 12 * 3600000.

(** [datetime.strptime(s, "%H:%M")] for the already split fields [HH] and
    [MM]: a datetime on 1900-01-01, given as milliseconds since that
    midnight. *)
Definition strptime_hm (hh mm : Z) : Z := (hh * 60 + mm) * 60000.

(** [.time()] of a datetime: the time of day, in milliseconds since
    midnight (floor modulo, as Python's calendar arithmetic). *)
Definition time_of (t : Z) : Z := t mod day_ms.

(** Outcome of the filter block: the configuration error
    ([self.error.emit(...); return]), the empty-result status
    ([continue]), or the filtered frame, whose index is still shifted. *)
Inductive outcome : Type :=
| ConfigError
| EmptyRange
| Rows (index : list Z).

(** Lines 116-139: bounds shifted by 12 hours and compared; index shifted
    by 12 hours; rows kept when their shifted time of day lies in the
    inclusive range. *)
Definition filter_time_range (start_hh start_mm end_hh end_mm : Z)
    (index : list Z) : outcome :=
  let start_time := time_of (strptime_hm start_hh start_mm + delta_time) in
  let end_time := time_of (strptime_hm end_hh end_mm + delta_time) in
  if end_time <? start_time then ConfigError
  else
    let shifted := map (fun t => t + delta_time) index in
    let kept := filter (fun t => (start_time <=? time_of t)
                                 && (time_of t <=? end_time)) shifted in
    match kept with
    | [] => EmptyRange
    | _ => Rows kept
    end.

(** Lines 195-197: [data_sample["Time"] - delta_time]. *)
Definition revert_delta (times : list Z) : list Z :=
  map (fun t => t - delta_time) times.

(** The timestamps that leave the filter, after the reversion. *)
Definition time_range_output (start_hh start_mm end_hh end_mm : Z)
    (index : list Z) : outcome :=
  match filter_time_range start_hh start_mm end_hh end_mm index with
  | Rows kept => Rows (revert_delta kept)
  | o => o
  end.

(** 2023-11-15 00:00 UTC, and a timestamp at [hh:mm] of that day or of
    the next one. *)
Definition day0 : Z := 19676 * day_ms.
Definition at_clock (d hh mm : Z) : Z := day0 + d * day_ms + strptime_hm hh mm.

(** The clock times used below: 22:00 and 23:30 of [day0], 02:00 and
    12:00 of the next day. *)
Definition night_index : list Z :=
  [at_clock 0 23 30; at_clock 1 2 0; at_clock 1 12 0].

End TimeRange.

(** ** PPI computation and cleaning (file_worker.py, lines 146-164) *)

Module Ppi.

(** A detected beat: its [Time] and its [Quality] score. *)
Record beat : Type := mkBeat {
  bTime : Z;
  bQuality : R
}.

(** [hrv_results.sort_values(by='Time')], as an insertion sort on
    [Time]. *)
Fixpoint insert_beat (b : beat) (l : list beat) : list beat :=
  match l with
  | [] => [b]
  | c :: t => if bTime b <=? bTime c then b :: c :: t else c :: insert_beat b t
  end.

Fixpoint sort_by_time (l : list beat) : list beat :=
  match l with
  | [] => []
  | b :: t => insert_beat b (sort_by_time t)
  end.

(** [hrv_results['Time'].diff().dt.total_seconds() * 1000]: [None] is the
    [NaN] of the first row. *)
Fixpoint diff_ms (prev : option Z) (l : list beat) : list (beat * option Z) :=
  match l with
  | [] => []
  | b :: t => (b, option_map (fun p => bTime b - p) prev)
              :: diff_ms (Some (bTime b)) t
  end.

(** [dropna(subset=['PPI'])] *)
Fixpoint dropna (l : list (beat * option Z)) : list (beat * Z) :=
  match l with
  | [] => []
  | (b, Some p) :: t => (b, p) :: dropna t
  | (b, None) :: t => dropna t
  end.

Definition in_band (low high : Z) (bp : beat * Z) : bool :=
  (low <=? snd bp) && (snd bp <=? high).

(** The cleaned rows, and the count in the status message
    [Removed {removed} outlier PPI values] ([None] when no frame with a
    [PPI] column exists, i.e. no beat was detected). *)
Definition clean_ppi (low high : Z) (beats : list beat)
    : list (beat * Z) * option nat :=
  match beats with
  | [] => ([], None)
  | _ =>
      let sorted := sort_by_time beats in
      let with_ppi := diff_ms None sorted in
      let cleaned := dropna with_ppi in
      let initial_len := length cleaned in
      let kept := filter (in_band low high) cleaned in
      (kept, Some (initial_len - length kept)%nat)
  end.

(** The pairs the spec describes: every beat of the time-ordered sequence
    but the first, with its gap to the preceding beat. *)
Fixpoint successive_ppis (l : list beat) : list (beat * Z) :=
  match l with
  | a :: ((b :: _) as t) => (b, bTime b - bTime a) :: successive_ppis t
  | _ => []
  end.

(** Beats ordered by time. *)
Definition time_le (a b : beat) : Prop := bTime a <= bTime b.

Definition beat_at (t : Z) : beat := mkBeat t 1%R.

End Ppi.

(** ** IEEE binary64 arithmetic as numpy and pandas do it *)

Module Fl.
Import PrimFloat FloatOps SpecFloat.

(** The double nearest to an integer, ties to even: C's [(double)] cast
    of an [int64], numpy's [int64 -> float64] cast, Python's [float(n)]. *)
Definition of_Z (z : Z) : float :=
  SF2Prim (binary_normalize prec emax z 0 false).

(** C's cast of a double to an integer: truncation toward zero; [None]
    on [inf] and [nan]. *)
Definition trunc (x : float) : option Z :=
  match Prim2SF x with
  | S754_zero _ => Some 0
  | S754_finite s m e =>
      let a := if 0 <=? e then Z.pos m * 2 ^ e else Z.pos m / 2 ^ (- e) in
      Some (if s then - a else a)
  | _ => None
  end.

(** C's cast of a double to [int64_t] as x86-64 executes it
    ([cvttsd2si]): truncation toward zero, and [INT64_MIN] for a value
    out of range, an infinity or [nan]. *)
Definition to_int64 (x : float) : Z :=
  match trunc x with
  | Some z => if (- 2 ^ 63 <=? z) && (z <? 2 ^ 63) then z else - 2 ^ 63
  | None => - 2 ^ 63
  end.

(** [np.rint]: the nearest integer, ties to even. *)
Definition rint (x : float) : float :=
  match Prim2SF x with
  | S754_finite s m e =>
      if 0 <=? e then x
      else
        let q := Z.pos m / 2 ^ (- e) in
        let r := Z.pos m mod 2 ^ (- e) in
        let h := 2 ^ (- e - 1) in
        let q' := if r <? h then q
                  else if h <? r then q + 1
                  else if Z.even q then q else q + 1 in
        if s then (- of_Z q')%float else of_Z q'
  | _ => x
  end.

(** numpy's [pairwise_sum] of a float64 buffer: a plain loop below 8
    values; up to 128 values, eight interleaved partial sums
    [r[0..7]] combined as [((r0+r1)+(r2+r3))+((r4+r5)+(r6+r7))], then the
    remainder added in order; above, the two halves split at a multiple
    of 8.  [fuel] is the length of the buffer. *)
Fixpoint pairwise_sum (fuel : nat) (a : list float) : float :=
  match fuel with
  | O => 0%float
  | S fuel' =>
      let n := length a in
      if (n <? 8)%nat then fold_left add a 0%float
      else if (n <=? 128)%nat then
        let blocks := (n - n mod 8)%nat in
        let r j := fold_left (fun acc k => add acc (nth (8 * k + j) a 0%float))
                             (seq 1 (blocks / 8 - 1)) (nth j a 0%float) in
        let res := add (add (add (r 0%nat) (r 1%nat)) (add (r 2%nat) (r 3%nat)))
                       (add (add (r 4%nat) (r 5%nat)) (add (r 6%nat) (r 7%nat))) in
        fold_left add (skipn blocks a) res
      else
        let n2 := (n / 2 - (n / 2) mod 8)%nat in
        (pairwise_sum fuel' (firstn n2 a) + pairwise_sum fuel' (skipn n2 a))%float
  end.

(** The buffers of 8192 values that numpy's iterator hands to the add
    loop when a reduction casts its input. *)
Fixpoint buffers (fuel : nat) (a : list float) : list (list float) :=
  match fuel, a with
  | O, _ | _, [] => []
  | S fuel', _ => firstn 8192 a :: buffers fuel' (skipn 8192 a)
  end.

(** [np.add.reduce(a, dtype=float64)]: the result starts at the identity
    [0.0] and each buffer's pairwise sum is added to it. *)
Definition add_reduce (a : list float) : float :=
  fold_left (fun acc b => (acc + pairwise_sum (length b) b)%float)
            (buffers (length a) a) 0%float.

(** [np.mean] of an integer array: the float64 sum divided by the
    count. *)
Definition mean_of_ints (a : list Z) : float :=
  (add_reduce (map of_Z a) / of_Z (Z.of_nat (length a)))%float.

(** Float64 values used by the code. *)
Definition sample_rate : float := 0.02%float.
Definition tolerance : float := 0.1%float.
Definition nine_tenths : float := 0.9%float.
Definition ns_per_s : float := 1e9%float.

End Fl.

(** ** Raw-file reading and timestamp reconstruction (io_utils.py) *)

Module Io.

(** The value of [read_ppg_file]: the [ValueError("Error reading file
    {file_path}: ...")] it raises, or the frame it returns, given by its
    [datetime] column in nanoseconds since the epoch ([None] is
    [pd.NaT]). *)
Inductive read_result : Type :=
| ReadError (file_path : String.string)
| Frame (datetime : list (option Z)).

Definition unix_threshold : Z := 1000000000.

(** [int64] values, and numpy's wrap-around of [int64] arithmetic. *)
Definition i64_max : Z := 2 ^ 63 - 1.

Definition in_int64 (z : Z) : bool := (- 2 ^ 63 <=? z) && (z <=? i64_max).

Definition wrap64 (z : Z) : Z := (z + 2 ^ 63) mod 2 ^ 64 - 2 ^ 63.

(** [NPY_NAT], the [int64] value that stands for [NaT]. *)
Definition nat_value : Z := - 2 ^ 63.

(** The nanosecond range of [pd.Timestamp]: every [int64] but
    [NPY_NAT]. *)
Definition ts_ok (ns : Z) : bool := (- i64_max <=? ns) && (ns <=? i64_max).

(** A datetime value: [None] is [NaT]. *)
Definition of_int64 (ns : Z) : option Z :=
  if ns =? nat_value then None else Some ns.

(** [pd.to_datetime(v, unit='s')] on an [int64] [v]: [v] seconds cast to
    nanoseconds by [astype_overflowsafe], which raises outside the
    nanosecond range.  The [start_time] of [info.txt] is parsed by
    [\d+], so it is non-negative and never [NPY_NAT]; numpy holds it as
    [int64] below [2 ^ 63] (the theorems below assume so). *)
Definition to_datetime_int_s (v : Z) : option Z :=
  if in_int64 v && ts_ok (v * 10 ^ 9) then Some (v * 10 ^ 9) else None.

(** [pd.to_datetime(x, unit='s')] on a float64 [x]
    ([cast_from_unit_vectorized], compiled with overflow checks):
    [base = <int64_t>x] ([NPY_NAT] for [nan]),
    [frac = np.round(x - base, 9)], and
    [out = <int64_t>(base * 10**9) + <int64_t>(frac * 10**9)], where the
    [int64] product and sum raise on overflow ([OutOfBoundsDatetime]);
    [base == NPY_NAT] gives [NaT], and [out] is read as a datetime.
    [Some None] is [NaT]; [None] is the raise. *)
Definition to_datetime_float_s (x : PrimFloat.float) : option (option Z) :=
  let base := if PrimFloat.is_nan x then nat_value else Fl.to_int64 x in
  if base =? nat_value then Some None
  else
    let frac := PrimFloat.sub x (Fl.of_Z base) in
    let frac9 := PrimFloat.div (Fl.rint (PrimFloat.mul frac Fl.ns_per_s))
                               Fl.ns_per_s in
    let f := Fl.to_int64 (PrimFloat.mul frac9 Fl.ns_per_s) in
    if in_int64 (base * 10 ^ 9) && in_int64 (base * 10 ^ 9 + f)
    then Some (of_int64 (base * 10 ^ 9 + f)) else None.

(** The loop of a branch that raises at its first failing row. *)
Fixpoint traverse {A B : Type} (f : A -> option B) (l : list A)
    : option (list B) :=
  match l with
  | [] => Some []
  | x :: t =>
      match f x with
      | None => None
      | Some y => option_map (cons y) (traverse f t)
      end
  end.

(** [first_col.max()]; [None] is the [NaN] of an empty column. *)
Definition col_max (l : list Z) : option Z :=
  match l with
  | [] => None
  | x :: t => Some (fold_left Z.max t x)
  end.

(** [df.loc[i, 'datetime'] = x] for an index [i] of the frame. *)
Fixpoint set_nth {A : Type} (i : nat) (x : A) (l : list A) : list A :=
  match l, i with
  | [], _ => []
  | _ :: t, O => x :: t
  | y :: t, S i' => y :: set_nth i' x t
  end.

(** [df.index[non_zero_mask].tolist()] *)
Definition nonzero_indices (col0 : list Z) : list nat :=
  filter (fun i => negb (nth i col0 0 =? 0)) (seq 0 (length col0)).

(** [pd.to_datetime(batch_timestamp + j * sample_rate, unit='s')]: the
    [int64] anchor plus the float [j * 0.02], in float64. *)
Definition batch_stamp (batch_timestamp : Z) (j : nat) : option (option Z) :=
  to_datetime_float_s
    (PrimFloat.add (Fl.of_Z batch_timestamp)
                   (PrimFloat.mul (Fl.of_Z (Z.of_nat j)) Fl.sample_rate)).

(** The inner loop [for j, idx in enumerate(range(start_idx, end_idx))];
    [None] once a conversion has raised. *)
Definition assign_batch (start_idx end_idx : nat) (batch_timestamp : Z)
    (col : option (list (option Z))) : option (list (option Z)) :=
  fold_left
    (fun c j =>
       match c with
       | None => None
       | Some c' =>
           match batch_stamp batch_timestamp j with
           | None => None
           | Some t => Some (set_nth (start_idx + j) t c')
           end
       end)
    (seq 0 (end_idx - start_idx)) col.

(** The outer loop [for i in range(len(timestamp_indices) - 1)]. *)
Fixpoint assign_batches (timestamp_indices : list nat) (col0 : list Z)
    (col : option (list (option Z))) : option (list (option Z)) :=
  match timestamp_indices with
  | s :: ((e :: _) as t) =>
      assign_batches t col0 (assign_batch s e (nth s col0 0) col)
  | _ => col
  end.

(** [df['col0'].cumsum()] on the [int64] column. *)
Fixpoint cumsum_from (acc : Z) (l : list Z) : list Z :=
  match l with
  | [] => []
  | x :: t => wrap64 (acc + x) :: cumsum_from (wrap64 (acc + x)) t
  end.

(** [df.loc[0, 'datetime'] + pd.Timedelta(milliseconds=c)] for the
    [int64] [c]: [Timedelta] turns [c] into the Python int [c * 10**6]
    ns, and [np.timedelta64] of it raises outside [int64] and is [NaT] at
    [NPY_NAT]; [Timestamp + NaT] is [NaT], and [Timestamp + Timedelta]
    raises when the [int64] sum overflows. *)
Definition add_timedelta_ms (start c : Z) : option (option Z) :=
  let d := c * 10 ^ 6 in
  if negb (in_int64 d) then None
  else if d =? nat_value then Some None
  else if in_int64 (start + d) then Some (of_int64 (start + d))
  else None.

(** The delta branch: every row first gets [pd.to_datetime(start_time,
    unit='s')]; then row [i > 0] gets that plus [cumulative_delta[i]]
    milliseconds. *)
Definition delta_datetimes (start_time : Z) (col0 : list Z)
    : option (list (option Z)) :=
  match to_datetime_int_s start_time with
  | None => None
  | Some start =>
      let cumulative_delta := cumsum_from 0 col0 in
      traverse
        (fun i => if (i =? 0)%nat then Some (Some start)
                  else add_timedelta_ms start (nth i cumulative_delta 0))
        (seq 0 (length col0))
  end.

(** [pd.date_range(start=..., periods=n, freq='20ms')] from a
    timestamp, which raises when its last value passes the largest
    timestamp ([_generate_range_overflow_safe] allows the end
    [start + n * stride] up to one stride past it). *)
Definition date_range_20ms (start : Z) (n : nat) : option (list (option Z)) :=
  if start + 20000000 * (Z.of_nat n - 1) <=? i64_max
  then Some (map (fun i => Some (start + 20000000 * Z.of_nat i)) (seq 0 n))
  else None.

(** [start_time = file_mtime - (len(df) / 50)] converted by
    [pd.to_datetime(start_time, unit='s')]. *)
Definition mtime_start (file_mtime : PrimFloat.float) (n : nat)
    : option (option Z) :=
  to_datetime_float_s
    (PrimFloat.sub file_mtime
       (PrimFloat.div (Fl.of_Z (Z.of_nat n)) (Fl.of_Z 50))).

(** [np.diff] on an [int64] array. *)
Fixpoint zdiff64 (l : list Z) : list Z :=
  match l with
  | x :: ((y :: _) as t) => wrap64 (y - x) :: zdiff64 t
  | _ => []
  end.

(** [is_incrementing_sequence(first_col.values)] as numpy evaluates it:
    [mean_diff] is the float64 mean of the [int64] differences; a
    difference counts when [abs(d - mean_diff) < 0.1 * mean_diff] in
    float64, and the test is [count / len(diffs) > 0.9]. *)
Definition is_incrementing_sequence_f64 (arr : list Z) : bool :=
  if (length arr <? 2)%nat then true
  else
    let diffs := zdiff64 arr in
    let mean_diff := Fl.mean_of_ints diffs in
    let close :=
      filter (fun d => PrimFloat.ltb
                         (PrimFloat.abs (PrimFloat.sub (Fl.of_Z d) mean_diff))
                         (PrimFloat.mul Fl.tolerance mean_diff)) diffs in
    PrimFloat.ltb Fl.nine_tenths
      (PrimFloat.div (Fl.of_Z (Z.of_nat (length close)))
                     (Fl.of_Z (Z.of_nat (length diffs)))).

(** [np.diff] and the sum of an array of small integers. *)
Fixpoint zdiff (l : list Z) : list Z :=
  match l with
  | x :: ((y :: _) as t) => (y - x) :: zdiff t
  | _ => []
  end.

Definition zsum (l : list Z) : Z := fold_right Z.add 0 l.

(** [is_incrementing_sequence(arr, tolerance=0.1)] in exact arithmetic.
    With [k] differences of sum [s], [|d - s/k| < 0.1 * s/k] is
    [10 * |k*d - s| < s], and [count / k > 0.9] is
    [10 * count > 9 * k].  It agrees with the float64 evaluation above
    except where a difference lies at the tolerance boundary. *)
Definition is_incrementing_sequence (arr : list Z) : bool :=
  if (length arr <? 2)%nat then true
  else
    let diffs := zdiff arr in
    let k := Z.of_nat (length diffs) in
    let s := zsum diffs in
    let close := filter (fun d => 10 * Z.abs (k * d - s) <? s) diffs in
    9 * k <? 10 * Z.of_nat (length close).

(** The test of the first branch: [first_col.eq(0).any()] and the first
    non-zero value is above [1000000000]. *)
Definition is_batched (col0 : list Z) : bool :=
  existsb (fun v => v =? 0) col0
  && match filter (fun v => negb (v =? 0)) col0 with
     | v :: _ => unix_threshold <? v
     | [] => false
     end.

(** The test of the second branch: [first_col.max() <= 10000]. *)
Definition is_delta (col0 : list Z) : bool :=
  match col_max col0 with
  | Some m => m <=? 10000
  | None => false
  end.

(** [read_ppg_file(file_path, folder_path)], for a file of [ncols]
    columns whose first column is the [int64] column [col0] (one value
    per row).  [folder_given] says whether [folder_path] is not [None];
    [info_start_time] is the [start_time] of the [info.txt] next to the
    file (in [folder_path], else in the file's directory), [None] when
    the file or the line is missing; [file_mtime] is
    [os.path.getmtime(file_path)].  In the incrementing-sequence branch
    the test ['col1' in df.columns] is always false: the columns were
    renamed to [col0, P0, P1, P2, AMBIENT, ...].  A [NaT] start makes
    [pd.date_range] raise.  Any exception of the body is re-raised as
    the [ValueError] naming the file. *)
Definition read_ppg_file (file_path : String.string) (ncols : nat)
    (col0 : list Z) (folder_given : bool) (info_start_time : option Z)
    (file_mtime : PrimFloat.float) : read_result :=
  let frame o := match o with
                 | Some dts => Frame dts
                 | None => ReadError file_path
                 end in
  if (ncols <? 5)%nat then ReadError file_path
  else
    let n := length col0 in
    if is_batched col0 then
      frame (assign_batches (nonzero_indices col0 ++ [n]) col0
                            (Some (repeat None n)))
    else if is_delta col0 then
      match info_start_time with
      | None => ReadError file_path
      | Some start_time => frame (delta_datetimes start_time col0)
      end
    else
      let start :=
        match is_incrementing_sequence_f64 col0, folder_given,
              info_start_time with
        | true, true, Some start_time =>
            option_map Some (to_datetime_int_s start_time)
        | _, _, _ => mtime_start file_mtime n
        end in
      match start with
      | Some (Some s) => frame (date_range_20ms s n)
      | _ => ReadError file_path
      end.



(** Ten increments of 1000 ms after a leading 0. *)
Definition uniform_deltas : list Z := 0 :: repeat 1000 10.


(** A column neither batched nor delta-like: no zero, maximum
    above 10000, not an incrementing sequence. *)
Definition flat_col : list Z := [20000; 20000].

(** A column whose differences [0; 5; ...; 5] lie at the tolerance
    boundary of [is_incrementing_sequence]: [|5 - 50/11| = 0.1 * 50/11]
    exactly. *)
Definition boundary_col : list Z :=
  [20000; 20000; 20005; 20010; 20015; 20020; 20025; 20030; 20035; 20040;
   20045; 20050].

(** A modification time, [1700000000.0] s. *)
Definition mtime_example : PrimFloat.float := Fl.of_Z 1700000000.

End Io.

(** ** Cooperative cancellation (directory_worker.py, batch_worker.py) *)

Module Workers.

(** [should_stop i] is the value of [self.should_stop] when the loop
    reaches its [i]-th unit; [stop()] may set it from another thread at
    any time.  Both loops return the units whose processing was started. *)

(** [for i, folder in enumerate(subfolders)] of [_process_directory]: the
    body never reads [self.should_stop]. *)
Fixpoint directory_loop {A : Type} (should_stop : nat -> bool) (i : nat)
    (subfolders : list A) : list A :=
  match subfolders with
  | [] => []
  | folder :: rest => folder :: directory_loop should_stop (S i) rest
  end.

(** [for i, participant_folder in enumerate(participant_folders)] of
    [BatchWorker.run]: [if self.should_stop: ... break]. *)
Fixpoint batch_loop {A : Type} (should_stop : nat -> bool) (i : nat)
    (participant_folders : list A) : list A :=
  match participant_folders with
  | [] => []
  | p :: rest =>
      if should_stop i then []
      else p :: batch_loop should_stop (S i) rest
  end.

End Workers.
(** ** Unused helpers of hrv_metrics.py: [calculate_ppi], [clean_ppi_data] *)

Module PpiHelpers.
Import Ppi.

(** [calculate_ppi(df)]: [df['PPI'] = df['Time'].diff().dt.total_seconds()
    * 1000], in the frame's row order; [None] is the [NaN] of the first
    row. *)
Definition calculate_ppi (df : list beat) : list (beat * option Z) :=
  diff_ms None df.

(** [(df['PPI'] >= low) & (df['PPI'] <= high)]: both comparisons are
    false on [NaN]. *)
Definition ppi_in_band (low high : Z) (bp : beat * option Z) : bool :=
  match snd bp with
  | Some p => (low <=? p) && (p <=? high)
  | None => false
  end.

(** [clean_ppi_data(df, low, high)]: the kept rows, and the count printed
    in [Removed {len(df) - len(cleaned)} rows]. *)
Definition clean_ppi_data (low high : Z) (df : list (beat * option Z))
    : list (beat * option Z) * nat :=
  let cleaned := filter (ppi_in_band low high) df in
  (cleaned, (length df - length cleaned)%nat).

End PpiHelpers.

(** ** Folder selection of [_process_directory] and
    [BatchWorker._process_participant] *)

Module Directory.

(** An entry of [os.scandir(...)]: its name, [is_dir()], whether
    [ppg.csv] exists in it, and what [read_ppg_file(ppg_file,
    folder_path=folder)] gives for it. *)
Record entry : Type := mkEntry {
  entry_name : String.string;
  entry_is_dir : bool;
  ppg_exists : bool;
  ppg_read : Io.read_result
}.

(** [str.isdigit()] on ASCII names: non-empty and made of [0-9]. *)
Definition is_digit_char (c : Ascii.ascii) : bool :=
  (48 <=? Ascii.nat_of_ascii c)%nat && (Ascii.nat_of_ascii c <=? 57)%nat.

Definition isdigit (s : String.string) : bool :=
  match s with
  | String.EmptyString => false
  | _ => forallb is_digit_char (String.list_ascii_of_string s)
  end.

(** [subfolders.sort()] on the paths [directory/name], i.e. by name. *)
Fixpoint insert_entry (e : entry) (l : list entry) : list entry :=
  match l with
  | [] => [e]
  | f :: t => if String.leb (entry_name e) (entry_name f) then e :: f :: t
              else f :: insert_entry e t
  end.

Fixpoint sort_entries (l : list entry) : list entry :=
  match l with
  | [] => []
  | e :: t => insert_entry e (sort_entries t)
  end.

(** The configuration test of lines 118-128: the bounds shifted by 12
    hours, and the error when the shifted end precedes the shifted
    start. *)
Definition range_config_error (sh sm eh em : Z) : bool :=
  TimeRange.time_of (TimeRange.strptime_hm eh em + TimeRange.delta_time)
  <? TimeRange.time_of (TimeRange.strptime_hm sh sm + TimeRange.delta_time).

Section Loop.

(** [cfg] is [Some (HH, MM, HH, MM)] when [use_time_range] holds and both
    bounds are given (the GUI passes them as ["HH:mm"] strings exactly
    then), [None] otherwise. *)
Variable cfg : option (Z * Z * Z * Z).

(** [R] stands for the [results] dict of lines 80-85, [init] for its
    initial value (an empty [ppi_data] frame per channel).
    [process_folder results name dts] is what the rest of the [try]
    block of lines 130-221 makes of [results] for the folder [name] whose
    file was read with the [datetime] column [dts]: the range filter, the
    sampling-rate estimate, then per channel the band-pass filter, the
    peak detection, the PPI cleaning and
    [pd.concat([results[channel]["ppi_data"], data_sample]).sort_values(by="Time")],
    including the channels already merged when a later step raises (the
    [except] keeps them).  [calculate_combined] is the HRV computation of
    lines 225-256 on the merged data.  They are parameters: the
    statements below hold for all of them. *)
Variable R : Type.
Variable init : R.
Variable process_folder : R -> String.string -> list (option Z) -> R.
Variable calculate_combined : R -> R.

(** [BatchWorker._process_participant]'s tagging of the results with the
    [Participant] column. *)
Variable add_participant : R -> R.

(** [for i, folder in enumerate(subfolders)]: a missing [ppg.csv] or a
    [ValueError] of [read_ppg_file] skips the folder; the configuration
    error returns [None] from [_process_directory]. *)
Fixpoint folder_loop (folders : list entry) (results : R) : option R :=
  match folders with
  | [] => Some results
  | f :: rest =>
      if negb (ppg_exists f) then folder_loop rest results
      else
        match ppg_read f with
        | Io.ReadError _ => folder_loop rest results
        | Io.Frame dts =>
            match cfg with
            | Some (sh, sm, eh, em) =>
                if range_config_error sh sm eh em then None
                else folder_loop rest
                       (process_folder results (entry_name f) dts)
            | None =>
                folder_loop rest (process_folder results (entry_name f) dts)
            end
        end
  end.

(** [_process_directory]: the numeric-named subfolders, [None] when there
    is none, else the folder loop over them in sorted order followed by
    the combined HRV computation. *)
Definition process_directory (entries : list entry) : option R :=
  match filter (fun e => entry_is_dir e && isdigit (entry_name e)) entries with
  | [] => None
  | subfolders =>
      option_map calculate_combined (folder_loop (sort_entries subfolders) init)
  end.

(** [BatchWorker._process_participant]: [None] when the participant has no
    session folder at all; else the [DirectoryProcessingWorker] run on
    it, whose [_get_results()] is [None] or the results dict (truthy: it
    has one key per channel), tagged with the participant. *)
Definition process_participant (sessions : list entry) : option R :=
  match filter entry_is_dir sessions with
  | [] => None
  | _ => option_map add_participant (process_directory sessions)
  end.

End Loop.

(** The layout of the [BatchWorker] docstring: a participant folder with
    session folders [Epoch1] and [Epoch2], each holding a readable
    [ppg.csv]. *)
Definition epoch_sessions : list entry :=
  [mkEntry "Epoch1" true true (Io.Frame [Some 0]);
   mkEntry "Epoch2" true true (Io.Frame [Some 0])].

End Directory.

(** ** Inputs used in the statements below (io_utils.py, workers) *)

Module Samples.

(** A batched first column whose first row comes before the first
    anchor. *)
Definition leading_zero_col : list Z := [0; 1700000000; 0].

(** Session folders with numeric names, listed by [os.scandir] out of
    name order. *)
Definition numbered_sessions : list Directory.entry :=
  [Directory.mkEntry "9" true true (Io.Frame [Some 0]);
   Directory.mkEntry "10" true true (Io.Frame [Some 20])].

End Samples.

(** ** Auxiliary definitions for the statements about [read_ppg_file] *)

Module IoSteps.
Import Io.


(** [cumulative_delta[i]]: the [int64] running sum of the first
    [i + 1] deltas. *)
Definition cum_ms (col0 : list Z) (i : nat) : Z :=
  wrap64 (zsum (firstn (S i) col0)).

(** The datetime the batch loop writes for offset [j] ([NaT] if the
    conversion gives it), and whether the conversion succeeds. *)
Definition stamp_val (bt : Z) (j : nat) : option Z :=
  match batch_stamp bt j with
  | Some t => t
  | None => None
  end.

Definition stamp_ok (bt : Z) (j : nat) : bool :=
  match batch_stamp bt j with
  | Some _ => true
  | None => false
  end.

(** The batch loops once every conversion succeeds. *)
Definition val_batch (start_idx end_idx : nat) (bt : Z)
    (col : list (option Z)) : list (option Z) :=
  fold_left (fun c j => set_nth (start_idx + j) (stamp_val bt j) c)
            (seq 0 (end_idx - start_idx)) col.

Definition ok_batch (start_idx end_idx : nat) (bt : Z) : bool :=
  forallb (stamp_ok bt) (seq 0 (end_idx - start_idx)).

Fixpoint val_batches (l : list nat) (col0 : list Z) (col : list (option Z))
    : list (option Z) :=
  match l with
  | s :: ((e :: _) as t) => val_batches t col0 (val_batch s e (nth s col0 0) col)
  | _ => col
  end.

(** [Q] holds of every two consecutive values of [l]. *)
Fixpoint pairs_ok (Q : nat -> nat -> bool) (l : list nat) : bool :=
  match l with
  | s :: ((e :: _) as t) => Q s e && pairs_ok Q t
  | _ => true
  end.

End IoSteps.

(** ** Bins of the HRV scan *)

(** Each record of [l] is at most one minute after the one before it
    (the first after [prev]). *)
Fixpoint gaps_ok (prev : row) (l : list row) : Prop :=
  match l with
  | [] => True
  | x :: t => Time x - Time prev <= minutes 1 /\ gaps_ok x t
  end.

(** A bin the scan can build: non-empty, every record at most [window]
    minutes after the first, and at most one minute after the previous
    one. *)
Definition bin_ok (window : Z) (b : list row) : Prop :=
  match b with
  | [] => False
  | h :: t => Forall (fun x => Time x - Time h <= minutes window) t
              /\ gaps_ok h t
  end.

(** The window a closed bin contributes: one when it holds more than one
    record, none otherwise. *)
Definition bin_output (b : list row) : list hrv_row :=
  match b with
  | h :: ((_ :: _) as t) => [emitted h t]
  | _ => []
  end.

(** After the prefix [p]: [p] is cut into the closed bins followed by
    [current_bin], and the results are the windows of the closed bins. *)
Definition inv_part (window : Z) (p : list row) (st : scan_state) : Prop :=
  let '(res, cur, cs) := st in
  exists bins, p = concat bins ++ cur
    /\ Forall (bin_ok window) bins
    /\ res = flat_map bin_output bins
    /\ ((cur = [] /\ cs = None /\ bins = [])
        \/ exists h t, cur = h :: t /\ cs = Some (Time h)
                       /\ bin_ok window (h :: t)).

(** Sum of the [Num_Data_Points] of the windows. *)
Definition total_points (ws : list hrv_row) : nat :=
  fold_right (fun w acc => (Num_Data_Points (hrv_metrics w) + acc)%nat) 0%nat ws.

(** ** Loop invariants of the scan *)

(** A window emitted from the bin [b]. *)
Definition from_bin (w : hrv_row) (b : list row) : Prop :=
  exists h t, b = h :: t /\ t <> [] /\ w = emitted h t.

(** After the prefix [p] of the frame: [p] ends with [current_bin], every
    result comes from a contiguous bin of what precedes it, and a non-empty
    bin starts at [current_start_time]. *)
Definition inv_struct (p : list row) (st : scan_state) : Prop :=
  let '(res, cur, cs) := st in
  (exists pre, p = pre ++ cur
     /\ forall w, In w res -> exists a b c, pre = a ++ b ++ c /\ from_bin w b)
  /\ ((cur = [] /\ cs = None /\ res = [])
      \/ exists h t, cur = h :: t /\ cs = Some (Time h)).

(** Order facts of the loop state: the emitted windows are well formed
    and separated, all end before the current bin starts, and the bin
    stays within [W] minutes of its first record. *)
Definition inv_chrono (window : Z) (st : scan_state) : Prop :=
  let '(res, cur, _) := st in
  Forall (fun w => Start_Time w <= End_Time w) res /\ separated res /\
  match cur with
  | [] => res = []
  | h :: t => (forall w, In w res -> End_Time w < Time h)
              /\ Forall (fun x => Time h <= Time x <= Time h + minutes window) t
  end.

(** ** Inputs used in the statements below *)

Definition ppi_example : list R := [800%R; 820%R; 780%R].
Definition quality_example : list R := [1%R; 1%R; 1%R].

(** ** Concrete run of the scan *)

Definition rec_at (t : Z) : row := mkRow t 800%R 1%R.

(** Beats at 0 s, 30 s, 200 s and 230 s: a 170 s gap inside a 5-minute
    window. *)
Definition gap_data : list row := map rec_at [0; 30000; 200000; 230000].

Example gap_data_windows :
  map (fun w => (Start_Time w, End_Time w)) (calculate_hrv_metrics gap_data 5)
  = [(0, 30000); (200000, 230000)].
Proof. reflexivity. Qed.

(** ** The HRV scan: invariants *)

Section Scan.

Variable window : Z.

Lemma close_bin_emit (h : row) (t : list row) (res : list hrv_row) :
  close_bin (h :: t) (Time h) res
  = match t with [] => res | _ :: _ => res ++ [emitted h t] end.
Proof. destruct t; reflexivity. Qed.


Lemma inv_struct_close (pre : list row) (h r : row) (t : list row)
    (res : list hrv_row) :
  (forall w, In w res -> exists a b c, pre = a ++ b ++ c /\ from_bin w b) ->
  inv_struct ((pre ++ h :: t) ++ [r])
             (close_bin (h :: t) (Time h) res, [r], Some (Time r)).
Proof.
  intros Hres. split.
  - exists (pre ++ h :: t). split; [reflexivity|].
    intros w Hw. rewrite close_bin_emit in Hw. destruct t as [|x t].
    + destruct (Hres w Hw) as (a & b & c & -> & Hb).
      exists a, b, (c ++ [h]). split; [now rewrite !app_assoc|exact Hb].
    + apply in_app_or in Hw as [Hw|[<-|[]]].
      * destruct (Hres w Hw) as (a & b & c & -> & Hb).
        exists a, b, (c ++ h :: x :: t).
        split; [now rewrite !app_assoc|exact Hb].
      * exists pre, (h :: x :: t), []. split; [now rewrite app_nil_r|].
        exists h, (x :: t). split; [reflexivity|]. split; [discriminate|].
        reflexivity.
  - right. exists r, []. split; reflexivity.
Qed.

Lemma inv_struct_step (p : list row) (st : scan_state) (r : row) :
  inv_struct p st -> inv_struct (p ++ [r]) (scan_step window st r).
Proof.
  destruct st as [[res cur] cs].
  intros [[pre [Hp Hres]] [[-> [-> ->]] | (h & t & -> & ->)]].
  - rewrite app_nil_r in Hp. subst p. unfold scan_step.
    destruct (Time r - Time r <=? minutes window);
      (split; [exists pre; split; [reflexivity|intros w []]
              |right; exists r, []; split; reflexivity]).
  - subst p. unfold scan_step.
    destruct (Time r - Time h <=? minutes window).
    + destruct (Time r - Time (last (h :: t) h) >? minutes 1).
      * now apply inv_struct_close.
      * split.
        -- exists pre. split; [now rewrite app_assoc|exact Hres].
        -- right. exists h, (t ++ [r]). split; reflexivity.
    + now apply inv_struct_close.
Qed.

Lemma inv_struct_fold (l p : list row) (st : scan_state) :
  inv_struct p st ->
  inv_struct (p ++ l) (fold_left (scan_step window) l st).
Proof.
  revert p st. induction l as [|r l IH]; intros p st H; simpl.
  - now rewrite app_nil_r.
  - replace (p ++ r :: l) with ((p ++ [r]) ++ l)
      by now rewrite <- app_assoc.
    apply IH, inv_struct_step, H.
Qed.

(** Every window of the output comes from a contiguous bin of the input. *)
Lemma windows_from_bins (data : list row) (w : hrv_row) :
  In w (calculate_hrv_metrics data window) ->
  exists a b c, data = a ++ b ++ c /\ from_bin w b.
Proof.
  unfold calculate_hrv_metrics.
  assert (Hinit : inv_struct [] ([], [], None)).
  { split.
    - exists []. split; [reflexivity|]. intros w' [].
    - left. repeat split. }
  pose proof (inv_struct_fold data [] ([], [], None) Hinit) as Hinv.
  destruct (fold_left (scan_step window) data ([], [], None))
    as [[res cur] cs].
  simpl in Hinv.
  destruct Hinv as [[pre [Hp Hres]] [[-> [-> ->]] | (h & t & -> & ->)]].
  - intros [].
  - intros Hw. rewrite close_bin_emit in Hw.
    assert (Hold : forall w', In w' res ->
              exists a b c, data = a ++ b ++ c /\ from_bin w' b).
    { intros w' Hw'. destruct (Hres w' Hw') as (a & b & c & Hpre & Hb).
      exists a, b, (c ++ h :: t). split; [|exact Hb].
      rewrite Hp, Hpre. now rewrite !app_assoc. }
    destruct t as [|x t].
    + now apply Hold.
    + apply in_app_or in Hw as [Hw|[<-|[]]]; [now apply Hold|].
      exists pre, (h :: x :: t), []. split; [now rewrite app_nil_r|].
      exists h, (x :: t). split; [reflexivity|]. split; [discriminate|].
      reflexivity.
Qed.

End Scan.

Section Chrono.

Variable window : Z.

Lemma last_in_tail (h : row) (t : list row) (d : row) :
  t <> [] -> In (last (h :: t) d) t.
Proof.
  revert h. induction t as [|x t IH]; intros h Ht; [contradiction|].
  destruct t as [|y t]; [now left|].
  right. apply (IH x). discriminate.
Qed.

Lemma last_in_bin (h : row) (t : list row) : In (last (h :: t) h) (h :: t).
Proof.
  destruct t as [|x t]; [now left|].
  right. apply (last_in_tail h). discriminate.
Qed.

Lemma separated_snoc (ws : list hrv_row) (w : hrv_row) :
  separated ws -> (forall v, In v ws -> End_Time v < Start_Time w) ->
  separated (ws ++ [w]).
Proof.
  induction ws as [|a ws IH]; intros Hs Hlt; [exact I|].
  destruct ws as [|b ws].
  - simpl. split; [apply Hlt; now left|exact I].
  - destruct Hs as [Hab Hs]. simpl. split; [exact Hab|].
    apply IH; [exact Hs|]. intros v Hv. apply Hlt. now right.
Qed.

Lemma ssorted_before (l1 l2 : list Z) (y : Z) :
  StronglySorted Z.le (l1 ++ y :: l2) -> forall x, In x l1 -> x <= y.
Proof.
  induction l1 as [|a l1 IH]; intros Hs x Hx; [destruct Hx|].
  apply StronglySorted_inv in Hs as [Hs Hf].
  destruct Hx as [<-|Hx].
  - rewrite Forall_forall in Hf. apply Hf, in_or_app. right. now left.
  - now apply IH.
Qed.


Lemma chrono_close (res : list hrv_row) (h : row) (t : list row) :
  Forall (fun w => Start_Time w <= End_Time w) res -> separated res ->
  (forall w, In w res -> End_Time w < Time h) ->
  Forall (fun x => Time h <= Time x) t ->
  Forall (fun w => Start_Time w <= End_Time w) (close_bin (h :: t) (Time h) res)
  /\ separated (close_bin (h :: t) (Time h) res).
Proof.
  intros Hse Hsep Hlt Ht. rewrite close_bin_emit.
  destruct t as [|x t]; [now split|]. split.
  - apply Forall_app. split; [exact Hse|]. constructor; [|constructor].
    simpl Start_Time. simpl End_Time.
    pose proof (last_in_tail h (x :: t) h ltac:(discriminate)) as Hl.
    rewrite Forall_forall in Ht. now apply Ht.
  - now apply separated_snoc.
Qed.

Lemma chrono_close_step (res : list hrv_row) (h r : row) (t : list row) :
  Forall (fun w => Start_Time w <= End_Time w) res -> separated res ->
  (forall w, In w res -> End_Time w < Time h) ->
  Forall (fun x => Time h <= Time x) t ->
  Time h <= Time r ->
  (t <> [] -> Time (last (h :: t) h) < Time r) ->
  inv_chrono window (close_bin (h :: t) (Time h) res, [r], Some (Time r)).
Proof.
  intros Hse Hsep Hlt Ht Hhr Hlast.
  destruct (chrono_close res h t Hse Hsep Hlt Ht) as [Hse' Hsep'].
  split; [exact Hse'|]. split; [exact Hsep'|]. split; [|constructor].
  intros w Hw. rewrite close_bin_emit in Hw. destruct t as [|x t].
  - specialize (Hlt w Hw). lia.
  - apply in_app_or in Hw as [Hw|[<-|[]]].
    + specialize (Hlt w Hw). lia.
    + apply Hlast. discriminate.
Qed.

Lemma inv_chrono_step (p : list row) (st : scan_state) (r : row) :
  inv_struct p st -> inv_chrono window st ->
  (forall x, In x p -> Time x <= Time r) ->
  inv_chrono window (scan_step window st r).
Proof.
  destruct st as [[res cur] cs].
  intros [[pre [Hp _]] [[-> [-> ->]] | (h & t & -> & ->)]] Hc Hle.
  - unfold scan_step. destruct (Time r - Time r <=? minutes window);
      (split; [constructor|split; [exact I|split; [intros w []|constructor]]]).
  - destruct Hc as (Hse & Hsep & Hlt & Ht).
    assert (Hhr : Time h <= Time r).
    { apply Hle. rewrite Hp. apply in_or_app. right. now left. }
    assert (Ht' : Forall (fun x => Time h <= Time x) t).
    { eapply Forall_impl; [|exact Ht]. simpl. lia. }
    unfold scan_step.
    destruct (Time r - Time h <=? minutes window) eqn:Hb.
    + destruct (Time r - Time (last (h :: t) h) >? minutes 1) eqn:Hg.
      * apply chrono_close_step; try assumption.
        intros _. unfold minutes in Hg. lia.
      * split; [exact Hse|]. split; [exact Hsep|]. split; [exact Hlt|].
        apply Forall_app. split; [exact Ht|].
        constructor; [|constructor]. lia.
    + apply chrono_close_step; try assumption.
      intros Hne. pose proof (last_in_tail h t h Hne) as Hl.
      rewrite Forall_forall in Ht. specialize (Ht _ Hl). lia.
Qed.

Lemma inv_chrono_fold (l p : list row) (st : scan_state) :
  StronglySorted Z.le (map Time (p ++ l)) ->
  inv_struct p st -> inv_chrono window st ->
  inv_chrono window (fold_left (scan_step window) l st).
Proof.
  revert p st. induction l as [|r l IH]; intros p st Hs Hst Hc; [exact Hc|].
  simpl. apply (IH (p ++ [r])).
  - now rewrite <- app_assoc.
  - now apply inv_struct_step.
  - apply (inv_chrono_step p); [exact Hst|exact Hc|].
    intros x Hx. rewrite map_app in Hs. simpl in Hs.
    apply (ssorted_before _ _ _ Hs). now apply in_map.
Qed.

Lemma separated_sorted (ws : list hrv_row) :
  Forall (fun w => Start_Time w <= End_Time w) ws -> separated ws ->
  Sorted (fun a b => Start_Time a < Start_Time b) ws.
Proof.
  induction ws as [|a ws IH]; intros Hse Hsep; [constructor|].
  inversion Hse as [|? ? Ha Hse']; subst.
  constructor.
  - destruct ws as [|b ws]; [constructor|].
    apply IH; [exact Hse'|exact (proj2 Hsep)].
  - destruct ws as [|b ws]; constructor.
    destruct Hsep as [Hab _]. lia.
Qed.

End Chrono.

Lemma num_data_points_length (ppi q : list R) :
  Num_Data_Points (calculate_metrics ppi q) = length ppi.
Proof. unfold calculate_metrics. now destruct (_ <? _)%nat. Qed.

(** ** Claims about the HRV scan *)

(** C5. Gap rule: when a record is within the [W]-minute budget of the
    current bin but more than one minute after the bin's last record, the
    step closes the current bin (emitting it only when it holds more than
    one record) and starts a new bin [[r]] at that record. *)
Theorem scan_gap_splits_bin (window : Z) (hrv_results : list hrv_row)
    (b0 : row) (bs : list row) (r : row)
    (Hbudget : Time r - Time b0 <= minutes window)
    (Hgap : Time r - Time (last (b0 :: bs) b0) > minutes 1) :
  scan_step window (hrv_results, b0 :: bs, Some (Time b0)) r
  = (close_bin (b0 :: bs) (Time b0) hrv_results, [r], Some (Time r))
  /\ close_bin (b0 :: bs) (Time b0) hrv_results
     = (if (1 <? length (b0 :: bs))%nat
        then hrv_results ++ [emitted b0 bs] else hrv_results).
Proof.
  split.
  - unfold scan_step.
    apply Z.leb_le in Hbudget. rewrite Hbudget.
    assert (E : (Time r - Time (last (b0 :: bs) b0) >? minutes 1) = true)
      by (apply Z.gtb_lt; lia).
    now rewrite E.
  - rewrite close_bin_emit. now destruct bs.
Qed.

Lemma scan_gap_splits_bin_witness :
  (Time (rec_at 200000) - Time (rec_at 0) <= minutes 5
   /\ Time (rec_at 200000) - Time (last [rec_at 0; rec_at 30000] (rec_at 0))
      > minutes 1)
  /\ scan_step 5 ([], [rec_at 0; rec_at 30000], Some (Time (rec_at 0)))
       (rec_at 200000)
     = ([emitted (rec_at 0) [rec_at 30000]], [rec_at 200000],
        Some (Time (rec_at 200000))).
Proof.
  assert (H1 : Time (rec_at 200000) - Time (rec_at 0) <= minutes 5)
    by (simpl; unfold minutes; lia).
  assert (H2 : Time (rec_at 200000)
               - Time (last [rec_at 0; rec_at 30000] (rec_at 0)) > minutes 1)
    by (simpl; unfold minutes; lia).
  split; [split; [exact H1|exact H2]|].
  destruct (scan_gap_splits_bin 5 [] (rec_at 0) [rec_at 30000]
              (rec_at 200000) H1 H2) as [E1 E2].
  rewrite E1, E2. reflexivity.
Defined.

(** C6. Every emitted window comes from a contiguous bin of more than one
    input record: its [Num_Data_Points] is the bin's size (so > 1), its
    metrics are those of the bin, its [Start_Time] and [End_Time] are the
    bin's first and last timestamps, and its span lies within the span of
    the input's timestamps. *)
Theorem hrv_windows_bins_and_span (data : list row) (window : Z) :
  Forall (fun w =>
      exists pre bin post, data = pre ++ bin ++ post
      /\ (1 < Num_Data_Points (hrv_metrics w))%nat
      /\ Num_Data_Points (hrv_metrics w) = length bin
      /\ hrv_metrics w = calculate_metrics (map PPI bin) (map Quality bin)
      /\ (exists h, hd_error bin = Some h /\ Start_Time w = Time h
                    /\ End_Time w = Time (last bin h))
      /\ (forall tau, Start_Time w <= tau <= End_Time w ->
            exists a b, In a data /\ In b data /\ Time a <= tau <= Time b))
    (calculate_hrv_metrics data window).
Proof.
  apply Forall_forall. intros w Hw.
  destruct (windows_from_bins window data w Hw)
    as (pre & bin & post & Hdata & h & t & -> & Ht & ->).
  exists pre, (h :: t), post. split; [exact Hdata|].
  unfold emitted. cbn [hrv_metrics Start_Time End_Time].
  rewrite num_data_points_length, length_map.
  split; [destruct t; [contradiction|simpl; lia]|].
  split; [reflexivity|]. split; [reflexivity|].
  split; [exists h; repeat split|].
  intros tau Htau. exists h, (last (h :: t) h).
  split; [rewrite Hdata; apply in_or_app; right; apply in_or_app; left; now left|].
  split; [|exact Htau].
  rewrite Hdata. apply in_or_app. right. apply in_or_app. left.
  apply last_in_bin.
Qed.

(** C10. On a frame sorted by [Time], the emitted windows satisfy
    [Start_Time <= End_Time], each ends strictly before the next one
    starts, and they are in chronological order of [Start_Time]. *)
Theorem hrv_windows_chronological (data : list row) (window : Z)
    (Hsorted : Sorted Z.le (map Time data)) :
  Forall (fun w => Start_Time w <= End_Time w)
         (calculate_hrv_metrics data window)
  /\ separated (calculate_hrv_metrics data window)
  /\ Sorted (fun a b => Start_Time a < Start_Time b)
            (calculate_hrv_metrics data window).
Proof.
  assert (Hfin : Forall (fun w => Start_Time w <= End_Time w)
                        (calculate_hrv_metrics data window)
                 /\ separated (calculate_hrv_metrics data window)).
  { assert (Hs : StronglySorted Z.le (map Time ([] ++ data))).
    { apply Sorted_StronglySorted; [exact Z.le_trans|exact Hsorted]. }
    assert (Hinit : inv_struct [] ([], [], None)).
    { split; [exists []; split; [reflexivity|intros w' []]|left; repeat split]. }
    assert (Hc0 : inv_chrono window ([], [], None))
      by (simpl; split; [apply Forall_nil|split; [exact I|reflexivity]]).
    pose proof (inv_struct_fold window data [] _ Hinit) as Hst.
    pose proof (inv_chrono_fold window data [] _ Hs Hinit Hc0) as Hc.
    unfold calculate_hrv_metrics.
    destruct (fold_left (scan_step window) data ([], [], None))
      as [[res cur] cs].
    destruct Hst as [_ [[-> [-> ->]] | (h & t & -> & ->)]].
    - split; [constructor|exact I].
    - destruct Hc as (Hse & Hsep & Hlt & Ht).
      apply chrono_close; try assumption.
      eapply Forall_impl; [|exact Ht]. simpl. lia. }
  destruct Hfin as [Hse Hsep].
  split; [exact Hse|]. split; [exact Hsep|].
  now apply separated_sorted.
Qed.

Lemma hrv_windows_chronological_witness :
  Sorted Z.le (map Time gap_data)
  /\ separated (calculate_hrv_metrics gap_data 5).
Proof.
  assert (H : Sorted Z.le (map Time gap_data))
    by (simpl; repeat constructor; lia).
  split; [exact H|].
  exact (proj1 (proj2 (hrv_windows_chronological gap_data 5 H))).
Defined.

(** ** Claims about [calculate_metrics] *)

Section Metrics.

Local Open Scope R_scope.


Lemma INR_3 : INR 3 = 3%R.
Proof. simpl. lra. Qed.

Lemma mean_ppi_example : Np.mean ppi_example = 800%R.
Proof.
  unfold Np.mean, ppi_example. cbn [Np.sum length]. rewrite INR_3. lra.
Qed.

(** C8. For at least two PPI values, [calculate_metrics] yields
    MeanNN = mean, SDNN = sample standard deviation (ddof = 1),
    RMSSD = sqrt (mean of squared successive differences),
    SDSD = sample standard deviation of the successive differences
    (NaN when there is only one difference, i.e. two PPI values),
    CVNN = SDNN / MeanNN and CVSD = RMSSD / MeanNN (NaN when MeanNN = 0),
    MedianNN = median, Num_Data_Points = count, Mean_Quality = mean
    quality (NaN when there is no quality value); and on PPI
    [800; 820; 780] with quality [1; 1; 1]: MeanNN = 800, SDNN = 20,
    RMSSD = sqrt 1000, CVNN = 0.025 and Num_Data_Points = 3. *)
Theorem calculate_metrics_formulas :
  (forall ppi_data quality_data : list R,
     (2 <= length ppi_data)%nat ->
     let m := Np.mean ppi_data in
     let sdnn := sqrt (Np.sum (map (fun x => (x - m) ^ 2) ppi_data)
                       / (INR (length ppi_data) - 1)) in
     let d := Np.diff ppi_data in
     let md := Np.mean d in
     let rmssd := sqrt (Np.mean (map (fun x => x ^ 2) d)) in
     calculate_metrics ppi_data quality_data
     = mkMetrics (Val m) (Val sdnn) (Val rmssd)
         (if (length d <=? 1)%nat then NaN
          else Val (sqrt (Np.sum (map (fun x => (x - md) ^ 2) d)
                          / (INR (length d) - 1))))
         (if Req_EM_T m 0 then NaN else Val (sdnn / m))
         (if Req_EM_T m 0 then NaN else Val (rmssd / m))
         (Val (Np.median ppi_data))
         (length ppi_data)
         (match quality_data with
          | [] => NaN
          | _ => Val (Np.mean quality_data)
          end))
  /\ (let mt := calculate_metrics ppi_example quality_example in
      MeanNN mt = Val 800 /\ SDNN mt = Val 20 /\ RMSSD mt = Val (sqrt 1000)
      /\ CVNN mt = Val (1 / 40) /\ Num_Data_Points mt = 3%nat).
Proof.
  split.
  - intros ppi_data quality_data Hlen.
    unfold calculate_metrics.
    destruct (Nat.ltb_spec (length ppi_data) 2); [lia|].
    unfold Np.std_num, Np.mean_num. destruct quality_data; reflexivity.
  - assert (Hsd : Np.std_ddof1 ppi_example = 20%R).
    { unfold Np.std_ddof1. rewrite mean_ppi_example.
      unfold ppi_example. cbn [Np.sum map length]. rewrite INR_3.
      replace (((800 - 800) ^ 2 + ((820 - 800) ^ 2 + ((780 - 800) ^ 2 + 0)))
               / (3 - 1))%R with (20 * 20)%R by (simpl; field).
      apply sqrt_square. lra. }
    assert (Hrm : Np.mean (Np.sq (Np.diff ppi_example)) = 1000%R).
    { unfold Np.mean, ppi_example. cbn [Np.diff Np.sq Np.sum map length].
      simpl INR. simpl pow. field. }
    unfold calculate_metrics. change (length ppi_example) with 3%nat.
    cbn [Nat.ltb Nat.leb].
    cbn [MeanNN SDNN RMSSD CVNN Num_Data_Points].
    rewrite Hsd, Hrm, mean_ppi_example.
    split; [reflexivity|]. split; [reflexivity|]. split; [reflexivity|].
    split; [|reflexivity].
    destruct (Req_EM_T 800 0) as [E|E]; [lra|].
    f_equal. field.
Qed.

End Metrics.

(** ** Claims about the time-of-day range filter *)

Module TimeRangeFacts.
Import TimeRange.

Lemma revert_filter_shifted (f : Z -> bool) (index : list Z) :
  revert_delta (filter f (map (fun t => t + delta_time) index))
  = filter (fun t => f (t + delta_time)) index.
Proof.
  induction index as [|t index IH]; [reflexivity|].
  simpl. destruct (f (t + delta_time)); simpl; rewrite ?IH; [|reflexivity].
  f_equal. lia.
Qed.


(** C1 (counterexample).  The window 05:00-22:00 (start < end) does not
    filter as a plain same-day window: once shifted by 12 hours its bounds
    are 17:00 and 10:00, and the filter reports the configuration error. *)
Lemma day_window_is_config_error :
  time_range_output 5 0 22 0 [at_clock 0 12 0] = ConfigError.
Proof. reflexivity. Qed.

(** C1 (amended).  The 12-hour shift is applied to every window,
    whatever the order of its bounds: with [s'] and [e'] the shifted
    bounds, the filter reports the configuration error when [e' < s'];
    otherwise it keeps exactly the timestamps whose shifted time of day
    lies in [[s', e']] (inclusive), returns them with the shift undone,
    and reports an empty range when none is kept.  In particular
    22:00-05:00 keeps 23:30 and 02:00 and drops 12:00, and 05:00-22:00
    is a configuration error. *)
Theorem time_range_always_shifted (sh sm eh em : Z) (index : list Z) :
  (let s' := time_of (strptime_hm sh sm + delta_time) in
   let e' := time_of (strptime_hm eh em + delta_time) in
   time_range_output sh sm eh em index
   = if e' <? s' then ConfigError
     else match filter (fun t => (s' <=? time_of (t + delta_time))
                                 && (time_of (t + delta_time) <=? e')) index
          with
          | [] => EmptyRange
          | kept => Rows kept
          end)
  /\ time_range_output 22 0 5 0 night_index
     = Rows [at_clock 0 23 30; at_clock 1 2 0]
  /\ time_range_output 5 0 22 0 night_index = ConfigError.
Proof.
  split; [|split; reflexivity].
  cbv zeta. unfold time_range_output, filter_time_range.
  destruct (_ <? _); [reflexivity|].
  cbv zeta.
  set (f := fun t => (time_of (strptime_hm sh sm + delta_time) <=? time_of t)
                     && (time_of t <=? time_of (strptime_hm eh em + delta_time))).
  pose proof (revert_filter_shifted f index) as E.
  destruct (filter f (map (fun t => t + delta_time) index)) as [|k ks] eqn:Hk.
  - simpl in E. subst f. rewrite <- E. reflexivity.
  - subst f. rewrite <- E. destruct (revert_delta (k :: ks)) eqn:Hr.
    + discriminate.
    + reflexivity.
Qed.

End TimeRangeFacts.

(** ** Claims about PPI computation and cleaning *)

Module PpiFacts.
Import Ppi.


Lemma insert_beat_perm (b : beat) (l : list beat) :
  Permutation (b :: l) (insert_beat b l).
Proof.
  induction l as [|c l IH]; simpl; [reflexivity|].
  destruct (bTime b <=? bTime c); [reflexivity|].
  rewrite perm_swap. now apply perm_skip.
Qed.

Lemma sort_by_time_perm (l : list beat) : Permutation l (sort_by_time l).
Proof.
  induction l as [|b l IH]; simpl; [reflexivity|].
  rewrite <- insert_beat_perm. now apply perm_skip.
Qed.

Lemma insert_beat_sorted (b : beat) (l : list beat) :
  Sorted time_le l -> Sorted time_le (insert_beat b l).
Proof.
  induction 1 as [|c l Hs IH Hhd]; simpl; [repeat constructor|].
  destruct (bTime b <=? bTime c) eqn:E.
  - apply Z.leb_le in E. constructor; [now constructor|]. now constructor.
  - apply Z.leb_gt in E. constructor; [exact IH|].
    destruct l as [|d l]; simpl.
    + constructor. unfold time_le. lia.
    + inversion Hhd as [|? ? Hcd]; subst.
      destruct (bTime b <=? bTime d); constructor; unfold time_le in *; lia.
Qed.

Lemma sort_by_time_sorted (l : list beat) : Sorted time_le (sort_by_time l).
Proof.
  induction l as [|b l IH]; simpl; [constructor|].
  now apply insert_beat_sorted.
Qed.

(** After the first row, [diff_ms] followed by [dropna] gives the
    successive gaps. *)
Lemma dropna_diff_ms (a : beat) (t : list beat) :
  dropna (diff_ms (Some (bTime a)) t) = successive_ppis (a :: t).
Proof.
  revert a. induction t as [|b t IH]; intros a; [reflexivity|].
  simpl. f_equal. apply IH.
Qed.

Lemma dropna_ppi_column (l : list beat) :
  dropna (diff_ms None l) = successive_ppis l.
Proof. destruct l as [|a t]; [reflexivity|]. apply dropna_diff_ms. Qed.

Lemma successive_ppis_length (l : list beat) :
  length (successive_ppis l) = (length l - 1)%nat.
Proof.
  induction l as [|a t IH]; [reflexivity|].
  destruct t as [|b t]; [reflexivity|].
  change (successive_ppis (a :: b :: t))
    with ((b, bTime b - bTime a) :: successive_ppis (b :: t)).
  simpl length in *. rewrite IH. lia.
Qed.


(** C7 (counterexample).  Two beats 800 ms apart: the first row is dropped
    (undefined PPI), so one of the two rows is removed, but the status
    message reports 0 removed rows. *)
Lemma ppi_removed_count_excludes_first :
  (length [beat_at 0; beat_at 800]
   - length (fst (clean_ppi 667 2000 [beat_at 0; beat_at 800])))%nat = 1%nat
  /\ snd (clean_ppi 667 2000 [beat_at 0; beat_at 800]) = Some 0%nat.
Proof. split; reflexivity. Qed.

(** C7 (amended).  The beats are sorted by time (a sorted permutation of
    the input); the output is, in time order, every beat but the first
    paired with its gap in ms to the preceding beat, restricted to the
    gaps in the inclusive band [[low, high]]; so no output row has an
    undefined PPI or a PPI outside the band.  The reported count is the
    number of defined-PPI rows the band removed: it does not count the
    first row.  An empty beat list gives no row and no report. *)
Theorem clean_ppi_band (low high : Z) (beats : list beat) :
  let sorted := sort_by_time beats in
  let kept := fst (clean_ppi low high beats) in
  Permutation beats sorted /\ Sorted time_le sorted
  /\ kept = filter (in_band low high) (successive_ppis sorted)
  /\ Forall (fun bp => low <= snd bp <= high) kept
  /\ snd (clean_ppi low high beats)
     = match beats with
       | [] => None
       | _ => Some (length beats - 1 - length kept)%nat
       end.
Proof.
  cbv zeta.
  assert (Hk : fst (clean_ppi low high beats)
               = filter (in_band low high) (successive_ppis (sort_by_time beats))).
  { destruct beats as [|b bs]; [reflexivity|].
    unfold clean_ppi. simpl fst. now rewrite dropna_ppi_column. }
  split; [apply sort_by_time_perm|].
  split; [apply sort_by_time_sorted|].
  split; [exact Hk|].
  split.
  - rewrite Hk. apply Forall_forall. intros [b p] Hin.
    apply filter_In in Hin as [_ Hb]. unfold in_band in Hb. simpl in *.
    apply andb_true_iff in Hb as [H1 H2].
    apply Z.leb_le in H1. apply Z.leb_le in H2. lia.
  - destruct beats as [|b bs]; [reflexivity|].
    rewrite Hk. unfold clean_ppi. cbv zeta.
    rewrite dropna_ppi_column, successive_ppis_length.
    rewrite <- (Permutation_length (sort_by_time_perm (b :: bs))).
    reflexivity.
Qed.

End PpiFacts.

(** ** Claims about timestamp reconstruction *)

Module IoFacts.
Import Io IoSteps.

Lemma fold_max_le (c : Z) (t : list Z) (x : Z) :
  x <= c -> Forall (fun v => v <= c) t -> fold_left Z.max t x <= c.
Proof.
  revert x. induction t as [|y t IH]; intros x Hx Ht; [exact Hx|].
  inversion Ht; subst. simpl. apply IH; [lia|assumption].
Qed.

Lemma small_not_batched (col0 : list Z) :
  Forall (fun v => v <= 10000) col0 -> is_batched col0 = false.
Proof.
  intros Hs. unfold is_batched.
  destruct (filter (fun v => negb (v =? 0)) col0) as [|v vs] eqn:Hf;
    [now rewrite andb_false_r|].
  assert (Hv : In v col0).
  { assert (Hin : In v (filter (fun v => negb (v =? 0)) col0))
      by (rewrite Hf; now left).
    now apply filter_In in Hin. }
  rewrite Forall_forall in Hs. specialize (Hs v Hv).
  unfold unix_threshold.
  destruct (1000000000 <? v) eqn:E; [apply Z.ltb_lt in E; lia|].
  now rewrite andb_false_r.
Qed.

Lemma small_is_delta (col0 : list Z) :
  col0 <> [] -> Forall (fun v => v <= 10000) col0 -> is_delta col0 = true.
Proof.
  intros Hne Hs. unfold is_delta, col_max.
  destruct col0 as [|x t]; [contradiction|].
  inversion Hs; subst. apply Z.leb_le. now apply fold_max_le.
Qed.

Lemma wrap64_add_l (a b : Z) : wrap64 (wrap64 a + b) = wrap64 (a + b).
Proof.
  unfold wrap64.
  replace ((a + 2 ^ 63) mod 2 ^ 64 - 2 ^ 63 + b + 2 ^ 63)
    with ((a + 2 ^ 63) mod 2 ^ 64 + b) by ring.
  rewrite Z.add_mod_idemp_l by (apply Z.pow_nonzero; lia).
  f_equal. f_equal. ring.
Qed.

Lemma wrap64_small (z : Z) : - 2 ^ 63 <= z < 2 ^ 63 -> wrap64 z = z.
Proof.
  intros H. unfold wrap64. rewrite Z.mod_small.
  - ring.
  - change (2 ^ 64) with (2 ^ 63 * 2). lia.
Qed.

Lemma nth_cumsum_from (l : list Z) (acc : Z) (i : nat) :
  (i < length l)%nat ->
  nth i (cumsum_from acc l) 0 = wrap64 (acc + zsum (firstn (S i) l)).
Proof.
  revert acc i. induction l as [|x l IH]; intros acc i Hi; simpl in Hi; [lia|].
  destruct i as [|i].
  - simpl. unfold zsum. simpl. f_equal. ring.
  - cbn [cumsum_from nth]. rewrite IH by lia. rewrite wrap64_add_l.
    unfold zsum. simpl. f_equal. ring.
Qed.

Lemma traverse_spec {A B : Type} (f : A -> option B) (ok : A -> bool)
    (g : A -> B) (l : list A) :
  (forall x, In x l -> f x = if ok x then Some (g x) else None) ->
  traverse f l = if forallb ok l then Some (map g l) else None.
Proof.
  induction l as [|x l IH]; intros H; [reflexivity|].
  cbn [traverse forallb map]. rewrite (H x (or_introl eq_refl)).
  destruct (ok x); [|reflexivity].
  rewrite IH by (intros y Hy; apply H; now right).
  destruct (forallb ok l); reflexivity.
Qed.

(** No millisecond count is [NPY_NAT]: [2 ^ 63] is not a multiple of
    [10 ^ 6]. *)
Lemma ms_not_nat (c : Z) : c * 10 ^ 6 <> nat_value.
Proof.
  intros E.
  assert (H : (c * 10 ^ 6) mod 10 ^ 6 = nat_value mod 10 ^ 6) by now rewrite E.
  rewrite Z.mod_mul in H by (apply Z.pow_nonzero; lia).
  vm_compute in H. discriminate H.
Qed.

Lemma delta_not_nat (s c : Z) : s * 10 ^ 9 + c * 10 ^ 6 <> nat_value.
Proof.
  intros E. apply (ms_not_nat (s * 1000 + c)). rewrite <- E. ring.
Qed.

Lemma add_timedelta_ms_eq (start c : Z) (k : Z) :
  start = k * 10 ^ 9 ->
  add_timedelta_ms start c
  = if in_int64 (c * 10 ^ 6) && in_int64 (start + c * 10 ^ 6)
    then Some (Some (start + c * 10 ^ 6)) else None.
Proof.
  intros ->. unfold add_timedelta_ms.
  destruct (in_int64 (c * 10 ^ 6)); cbn [negb andb]; [|reflexivity].
  destruct (Z.eqb_spec (c * 10 ^ 6) nat_value) as [E|_];
    [exfalso; exact (ms_not_nat c E)|].
  destruct (in_int64 (k * 10 ^ 9 + c * 10 ^ 6)); [|reflexivity].
  unfold of_int64.
  destruct (Z.eqb_spec (k * 10 ^ 9 + c * 10 ^ 6) nat_value) as [E|_];
    [exfalso; exact (delta_not_nat k c E)|reflexivity].
Qed.

(** The delta branch in closed form: with [start_time = S], row 0 gets
    [S] seconds and row [i > 0] gets [S] seconds plus
    [cumulative_delta[i]] milliseconds, unless a conversion or an
    addition leaves the timestamp range, which raises. *)
Lemma read_delta (file_path : String.string) (ncols : nat) (col0 : list Z)
    (folder_given : bool) (S : Z) (file_mtime : PrimFloat.float)
    (Hcols : (5 <= ncols)%nat) (Hne : col0 <> [])
    (Hsmall : Forall (fun v => v <= 10000) col0) (HS : 0 <= S < 2 ^ 63) :
  read_ppg_file file_path ncols col0 folder_given (Some S) file_mtime
  = if ts_ok (S * 10 ^ 9)
       && forallb (fun i => (i =? 0)%nat
                            || (in_int64 (cum_ms col0 i * 10 ^ 6)
                                && in_int64 (S * 10 ^ 9 + cum_ms col0 i * 10 ^ 6)))
                  (seq 0 (length col0))
    then Frame (map (fun i => Some (S * 10 ^ 9
                                    + if (i =? 0)%nat then 0
                                      else cum_ms col0 i * 10 ^ 6))
                    (seq 0 (length col0)))
    else ReadError file_path.
Proof.
  unfold read_ppg_file. destruct (Nat.ltb_spec ncols 5); [lia|].
  rewrite small_not_batched, small_is_delta by assumption.
  unfold delta_datetimes, to_datetime_int_s.
  assert (Hin : in_int64 S = true).
  { unfold in_int64, i64_max. apply andb_true_intro.
    split; apply Z.leb_le; lia. }
  rewrite Hin. cbn [andb].
  destruct (ts_ok (S * 10 ^ 9)); cbn [andb]; [|reflexivity].
  rewrite (traverse_spec _
             (fun i => (i =? 0)%nat
                       || (in_int64 (cum_ms col0 i * 10 ^ 6)
                           && in_int64 (S * 10 ^ 9 + cum_ms col0 i * 10 ^ 6)))
             (fun i => Some (S * 10 ^ 9
                             + if (i =? 0)%nat then 0
                               else cum_ms col0 i * 10 ^ 6))).
  - destruct (forallb _ _); reflexivity.
  - intros i Hi. apply in_seq in Hi.
    destruct (Nat.eqb_spec i 0) as [->|Hi0]; cbn [orb].
    + do 2 f_equal. ring.
    + rewrite (add_timedelta_ms_eq _ _ S) by reflexivity.
      rewrite nth_cumsum_from by lia. reflexivity.
Qed.





Lemma length_set_nth {A : Type} (i : nat) (x : A) (l : list A) :
  length (set_nth i x l) = length l.
Proof.
  revert i. induction l as [|y l IH]; intros [|i]; simpl; auto.
Qed.

Lemma nth_set_nth {A : Type} (j i : nat) (x d : A) (l : list A) :
  (i < length l)%nat ->
  nth i (set_nth j x l) d = if (i =? j)%nat then x else nth i l d.
Proof.
  revert i j. induction l as [|y l IH]; intros i j Hi; simpl in Hi; [lia|].
  destruct j as [|j], i as [|i]; simpl; try reflexivity.
  apply IH. lia.
Qed.

(** Once a conversion has raised, the loops stay raised. *)
Lemma assign_fold_none (s : nat) (bt : Z) (js : list nat) :
  fold_left
    (fun c j =>
       match c with
       | None => None
       | Some c' =>
           match batch_stamp bt j with
           | None => None
           | Some t => Some (set_nth (s + j) t c')
           end
       end) js None = None.
Proof. induction js as [|j js IH]; [reflexivity|exact IH]. Qed.

Lemma assign_batch_some (s e : nat) (bt : Z) (col : list (option Z)) :
  assign_batch s e bt (Some col)
  = if ok_batch s e bt then Some (val_batch s e bt col) else None.
Proof.
  unfold assign_batch, ok_batch, val_batch.
  generalize col. induction (seq 0 (e - s)) as [|j js IH]; intros c;
    [reflexivity|].
  cbn [fold_left forallb]. unfold stamp_ok, stamp_val.
  destruct (batch_stamp bt j) as [t|]; cbn [andb].
  - apply IH.
  - apply assign_fold_none.
Qed.

Lemma assign_batches_none (l : list nat) (col0 : list Z) :
  assign_batches l col0 None = None.
Proof.
  induction l as [|s t IH]; [reflexivity|].
  destruct t as [|e t']; [reflexivity|].
  change (assign_batches (s :: e :: t') col0 None)
    with (assign_batches (e :: t') col0 (assign_batch s e (nth s col0 0) None)).
  unfold assign_batch. rewrite assign_fold_none. exact IH.
Qed.

Lemma assign_batches_some (l : list nat) (col0 : list Z)
    (col : list (option Z)) :
  assign_batches l col0 (Some col)
  = if pairs_ok (fun s e => ok_batch s e (nth s col0 0)) l
    then Some (val_batches l col0 col) else None.
Proof.
  revert col. induction l as [|s t IH]; intros col; [reflexivity|].
  destruct t as [|e t']; [reflexivity|].
  change (assign_batches (s :: e :: t') col0 (Some col))
    with (assign_batches (e :: t') col0
            (assign_batch s e (nth s col0 0) (Some col))).
  rewrite assign_batch_some. cbn [pairs_ok val_batches].
  destruct (ok_batch s e (nth s col0 0)); cbn [andb].
  - apply IH.
  - apply assign_batches_none.
Qed.

Lemma length_val_batch (s e : nat) (bt : Z) (col : list (option Z)) :
  length (val_batch s e bt col) = length col.
Proof.
  unfold val_batch. generalize col.
  induction (seq 0 (e - s)) as [|j js IH]; intros c; [reflexivity|].
  simpl. rewrite IH. apply length_set_nth.
Qed.

Lemma nth_val_batch (s e : nat) (bt : Z) (col : list (option Z)) (i : nat) :
  (i < length col)%nat ->
  nth i (val_batch s e bt col) None
  = if (s <=? i)%nat && (i <? e)%nat then stamp_val bt (i - s)
    else nth i col None.
Proof.
  intros Hi. unfold val_batch.
  set (f := fun c j => set_nth (s + j) (stamp_val bt j) c).
  assert (Hgen : forall k,
    nth i (fold_left f (seq 0 k) col) None
    = (if (s <=? i)%nat && (i <? s + k)%nat then stamp_val bt (i - s)
       else nth i col None)
    /\ length (fold_left f (seq 0 k) col) = length col).
  { induction k as [|k [IHn IHl]].
    - simpl. split; [|reflexivity].
      destruct (Nat.leb_spec s i), (Nat.ltb_spec i (s + 0));
        simpl; try reflexivity; lia.
    - rewrite seq_S, fold_left_app.
      rewrite Nat.add_0_l. cbn [fold_left].
      assert (Ef : forall c, f c k = set_nth (s + k) (stamp_val bt k) c)
        by reflexivity.
      rewrite Ef.
      split; [|now rewrite length_set_nth].
      rewrite nth_set_nth by (rewrite IHl; exact Hi). rewrite IHn.
      destruct (Nat.eqb_spec i (s + k)) as [->|Hne].
      + destruct (Nat.leb_spec s (s + k)); [|lia].
        destruct (Nat.ltb_spec (s + k) (s + S k)); [|lia].
        cbn [andb]. replace (s + k - s)%nat with k by lia. reflexivity.
      + destruct (Nat.leb_spec s i); simpl; [|reflexivity].
        destruct (Nat.ltb_spec i (s + k)), (Nat.ltb_spec i (s + S k));
          try reflexivity; lia. }
  destruct (Hgen (e - s)%nat) as [Hn _]. rewrite Hn.
  destruct (Nat.leb_spec s i); simpl; [|reflexivity].
  destruct (Nat.ltb_spec i (s + (e - s))%nat), (Nat.ltb_spec i e);
    try reflexivity; lia.
Qed.

(** Batches starting after row [i] leave it alone. *)
Lemma nth_val_batches_below (l : list nat) (col0 : list Z)
    (col : list (option Z)) (i : nat) :
  (forall x, In x l -> (i < x)%nat) -> (i < length col)%nat ->
  nth i (val_batches l col0 col) None = nth i col None.
Proof.
  revert col. induction l as [|s l IH]; intros col Hl Hi; [reflexivity|].
  destruct l as [|e l]; [reflexivity|].
  change (val_batches (s :: e :: l) col0 col)
    with (val_batches (e :: l) col0 (val_batch s e (nth s col0 0) col)).
  rewrite IH.
  - rewrite nth_val_batch by exact Hi.
    destruct (Nat.leb_spec s i); [|reflexivity].
    specialize (Hl s (or_introl eq_refl)). lia.
  - intros x Hx. apply Hl. now right.
  - now rewrite length_val_batch.
Qed.


Lemma length_val_batches (l : list nat) (col0 : list Z)
    (col : list (option Z)) :
  length (val_batches l col0 col) = length col.
Proof.
  revert col. induction l as [|s l IH]; intros col; [reflexivity|].
  destruct l as [|e l]; [reflexivity|].
  change (val_batches (s :: e :: l) col0 col)
    with (val_batches (e :: l) col0 (val_batch s e (nth s col0 0) col)).
  rewrite IH. apply length_val_batch.
Qed.












(** C4 (counterexample).  [flat_col] matches neither encoding, yet
    [read_ppg_file] does not fail: it stamps the rows 20 ms apart from
    the file's modification time (1700000000 s) minus [2 / 50] s. *)
Lemma unknown_shape_gets_mtime_stamps :
  read_ppg_file "ppg.csv"%string 5 flat_col false None mtime_example
  = Frame [Some 1699999999960000038; Some 1699999999980000038].
Proof. vm_compute. reflexivity. Qed.

(** C4 (amended).  A file of fewer than five columns fails with the
    error naming the file.  A first column of neither supported shape is
    not rejected: its rows are stamped 20 ms apart by [pd.date_range],
    from [start_time] of [info.txt] when numpy's float64
    [is_incrementing_sequence] holds of the column, [folder_path] is
    given and the value is found, and otherwise from the file's
    modification time minus [n / 50] s.  The read fails, with the same
    error, only when that start or the last stamp leaves the timestamp
    range.  On the column [20000; 20000; 20005; ...; 20050], whose
    differences lie at the tolerance boundary, the float64 test holds,
    so [start_time = 1700000000] gives stamps 20 ms apart from
    1700000000 s, while the epoch-ms [start_time = 1700000000000] makes
    the read fail. *)
Theorem read_ppg_file_fallback (file_path : string) (ncols : nat)
    (col0 : list Z) (folder_given : bool) (info_start_time : option Z)
    (file_mtime : PrimFloat.float) :
  ((ncols < 5)%nat ->
   read_ppg_file file_path ncols col0 folder_given info_start_time file_mtime
   = ReadError file_path)
  /\ ((5 <= ncols)%nat -> is_batched col0 = false -> is_delta col0 = false ->
      read_ppg_file file_path ncols col0 folder_given info_start_time file_mtime
      = match match is_incrementing_sequence_f64 col0, folder_given,
                    info_start_time with
              | true, true, Some start_time =>
                  option_map Some (to_datetime_int_s start_time)
              | _, _, _ => mtime_start file_mtime (length col0)
              end with
        | Some (Some s) =>
            if s + 20000000 * (Z.of_nat (length col0) - 1) <=? i64_max
            then Frame (map (fun i => Some (s + 20000000 * Z.of_nat i))
                            (seq 0 (length col0)))
            else ReadError file_path
        | _ => ReadError file_path
        end)
  /\ is_incrementing_sequence_f64 boundary_col = true
  /\ is_incrementing_sequence boundary_col = false
  /\ read_ppg_file file_path 5 boundary_col true (Some 1700000000) file_mtime
     = Frame (map (fun i => Some (1700000000 * 10 ^ 9 + 20000000 * Z.of_nat i))
                  (seq 0 12))
  /\ read_ppg_file file_path 5 boundary_col true (Some 1700000000000) file_mtime
     = ReadError file_path.
Proof.
  split; [|split; [|split; [|split; [|split]]]].
  - intros Hc. unfold read_ppg_file.
    destruct (Nat.ltb_spec ncols 5); [reflexivity|lia].
  - intros Hc Hb Hd. unfold read_ppg_file.
    destruct (Nat.ltb_spec ncols 5); [lia|].
    rewrite Hb, Hd. cbv zeta.
    destruct (match is_incrementing_sequence_f64 col0, folder_given,
                    info_start_time with
              | true, true, Some start_time =>
                  option_map Some (to_datetime_int_s start_time)
              | _, _, _ => mtime_start file_mtime (length col0)
              end) as [[s|]|]; [|reflexivity|reflexivity].
    unfold date_range_20ms. destruct (_ <=? _); reflexivity.
  - vm_compute. reflexivity.
  - vm_compute. reflexivity.
  - vm_compute. reflexivity.
  - vm_compute. reflexivity.
Qed.

End IoFacts.

(** ** Claims about cancellation *)

Module WorkerFacts.
Import Workers.

Lemma directory_loop_all {A : Type} (should_stop : nat -> bool) (i : nat)
    (subfolders : list A) :
  directory_loop should_stop i subfolders = subfolders.
Proof.
  revert i. induction subfolders as [|f rest IH]; intros i; [reflexivity|].
  simpl. now rewrite IH.
Qed.

Lemma batch_loop_checked {A : Type} (should_stop : nat -> bool)
    (ps : list A) (i k : nat) (p : A) :
  nth_error (batch_loop should_stop i ps) k = Some p ->
  should_stop (i + k)%nat = false /\ nth_error ps k = Some p.
Proof.
  revert i k. induction ps as [|q ps IH]; intros i k H; [destruct k; discriminate|].
  simpl in H. destruct (should_stop i) eqn:E; [destruct k; discriminate|].
  destruct k as [|k].
  - simpl in H. injection H as <-. rewrite Nat.add_0_r. now split.
  - simpl in H. destruct (IH (S i) k H) as [Hs Hn].
    split; [now rewrite <- Nat.add_succ_comm|exact Hn].
Qed.

(** C9.  The participant loop of [BatchWorker.run] starts a unit only
    when the stop flag is unset at that iteration, but the folder loop of
    [_process_directory] never reads the flag: with the flag set before
    every folder, both folders of a two-folder directory are still
    processed. *)
Theorem directory_loop_ignores_stop :
  (forall (should_stop : nat -> bool) (ps : list nat) (k p : nat),
     nth_error (batch_loop should_stop 0 ps) k = Some p ->
     should_stop k = false)
  /\ directory_loop (fun _ => true) 0 [1%nat; 2%nat] = [1%nat; 2%nat].
Proof.
  split.
  - intros should_stop ps k p H.
    exact (proj1 (batch_loop_checked should_stop ps 0 k p H)).
  - apply directory_loop_all.
Qed.

End WorkerFacts.

(** ** Further properties of the HRV scan *)

Section Partition.

Variable window : Z.

Lemma last_cons_default (x : row) (t : list row) (d d' : row) :
  last (x :: t) d = last (x :: t) d'.
Proof.
  revert x. induction t as [|y t IH]; intros x; [reflexivity|].
  change (last (y :: t) d = last (y :: t) d'). apply IH.
Qed.

Lemma gaps_ok_snoc (prev : row) (t : list row) (r : row) :
  gaps_ok prev t -> Time r - Time (last (prev :: t) prev) <= minutes 1 ->
  gaps_ok prev (t ++ [r]).
Proof.
  revert prev. induction t as [|x t IH]; intros prev Hg Hr.
  - simpl in *. split; [exact Hr|exact I].
  - destruct Hg as [Hx Hg]. simpl. split; [exact Hx|].
    apply IH; [exact Hg|].
    change (last (prev :: x :: t) prev) with (last (x :: t) prev) in Hr.
    now rewrite (last_cons_default x t x prev).
Qed.

Lemma close_bin_output (h : row) (t : list row) (res : list hrv_row) :
  close_bin (h :: t) (Time h) res = res ++ bin_output (h :: t).
Proof.
  rewrite close_bin_emit. destruct t; [now rewrite app_nil_r|reflexivity].
Qed.

Lemma inv_part_close (p : list row) (bins : list (list row)) (h r : row)
    (t : list row) (res : list hrv_row) :
  p = concat bins ++ h :: t -> Forall (bin_ok window) bins ->
  res = flat_map bin_output bins -> bin_ok window (h :: t) ->
  inv_part window (p ++ [r])
    (close_bin (h :: t) (Time h) res, [r], Some (Time r)).
Proof.
  intros Hp Hb Hres Hht.
  exists (bins ++ [h :: t]). split; [|split; [|split]].
  - rewrite Hp, concat_app. simpl. now rewrite app_nil_r, <- app_assoc.
  - apply Forall_app. split; [exact Hb|now constructor].
  - rewrite close_bin_output, flat_map_app, Hres. simpl. now rewrite app_nil_r.
  - right. exists r, []. repeat split. apply Forall_nil.
Qed.

Lemma inv_part_step (p : list row) (st : scan_state) (r : row) :
  inv_part window p st -> inv_part window (p ++ [r]) (scan_step window st r).
Proof.
  destruct st as [[res cur] cs].
  intros (bins & Hp & Hb & Hres & [[-> [-> ->]] | (h & t & -> & -> & Hht)]).
  - unfold scan_step.
    assert (Hr : inv_part window (p ++ [r]) (res, [r], Some (Time r))).
    { exists []. subst. simpl. split; [reflexivity|].
      split; [constructor|]. split; [reflexivity|].
      right. exists r, []. repeat split. apply Forall_nil. }
    destruct (Time r - Time r <=? minutes window); exact Hr.
  - unfold scan_step.
    destruct (Time r - Time h <=? minutes window) eqn:Hw.
    + destruct (Time r - Time (last (h :: t) h) >? minutes 1) eqn:Hg.
      * exact (inv_part_close p bins h r t res Hp Hb Hres Hht).
      * exists bins. split; [|split; [exact Hb|split; [exact Hres|]]].
        -- rewrite Hp. now rewrite <- app_assoc.
        -- right. exists h, (t ++ [r]). split; [reflexivity|].
           split; [reflexivity|].
           destruct Hht as [Hf Hgp]. split.
           ++ apply Forall_app. split; [exact Hf|].
              constructor; [|constructor]. now apply Z.leb_le.
           ++ apply gaps_ok_snoc; [exact Hgp|].
              rewrite Z.gtb_ltb in Hg. apply Z.ltb_ge in Hg. exact Hg.
    + exact (inv_part_close p bins h r t res Hp Hb Hres Hht).
Qed.

Lemma inv_part_fold (l p : list row) (st : scan_state) :
  inv_part window p st ->
  inv_part window (p ++ l) (fold_left (scan_step window) l st).
Proof.
  revert p st. induction l as [|r l IH]; intros p st H.
  - now rewrite app_nil_r.
  - simpl. replace (p ++ r :: l) with ((p ++ [r]) ++ l)
      by now rewrite <- app_assoc.
    apply IH. now apply inv_part_step.
Qed.

Lemma hrv_partition (data : list row) :
  exists bins, data = concat bins /\ Forall (bin_ok window) bins
    /\ calculate_hrv_metrics data window = flat_map bin_output bins.
Proof.
  assert (H0 : inv_part window [] ([], [], None)).
  { exists []. repeat split; [constructor|]. left. repeat split. }
  pose proof (inv_part_fold data [] _ H0) as H. simpl in H.
  unfold calculate_hrv_metrics.
  destruct (fold_left (scan_step window) data ([], [], None))
    as [[res cur] cs].
  destruct H as (bins & Hp & Hb & Hres & [[-> [-> ->]] | (h & t & -> & -> & Hht)]).
  - exists []. subst. simpl. repeat split. constructor.
  - exists (bins ++ [h :: t]). split; [|split].
    + rewrite Hp, concat_app. simpl. now rewrite app_nil_r.
    + apply Forall_app. split; [exact Hb|now constructor].
    + rewrite close_bin_output, flat_map_app, Hres. simpl.
      now rewrite app_nil_r.
Qed.

End Partition.

Lemma bin_output_span (window : Z) (b : list row) (w : hrv_row) :
  bin_ok window b -> In w (bin_output b) ->
  End_Time w - Start_Time w <= minutes window.
Proof.
  destruct b as [|h [|x t]]; simpl; try tauto.
  intros [Hf _] [<-|[]]. simpl.
  pose proof (last_in_tail h (x :: t) h ltac:(discriminate)) as Hl.
  rewrite Forall_forall in Hf. apply Hf. exact Hl.
Qed.

Lemma total_points_app (a b : list hrv_row) :
  total_points (a ++ b) = (total_points a + total_points b)%nat.
Proof.
  induction a as [|w a IH]; simpl; [reflexivity|]. rewrite IH. lia.
Qed.

Lemma bin_output_points (b : list row) :
  (total_points (bin_output b) <= length b)%nat
  /\ (2 * length (bin_output b) <= length b)%nat.
Proof.
  destruct b as [|h [|x t]]; [simpl; lia|simpl; lia|].
  unfold bin_output, total_points, emitted.
  cbn [fold_right hrv_metrics length].
  rewrite num_data_points_length, length_map. simpl. lia.
Qed.

Lemma flat_map_bin_output_points (bins : list (list row)) :
  (total_points (flat_map bin_output bins) <= length (concat bins))%nat
  /\ (2 * length (flat_map bin_output bins) <= length (concat bins))%nat.
Proof.
  induction bins as [|b bins [IH1 IH2]]; simpl; [lia|].
  rewrite total_points_app, !length_app.
  destruct (bin_output_points b). lia.
Qed.

(** X1. [calculate_hrv_metrics] cuts the frame into consecutive non-empty
    bins, in row order and without reordering, dropping or sharing a row;
    within a bin every row is at most [window] minutes after the bin's
    first row and at most one minute after the previous row; and the
    output is, in order, one window per bin of more than one row. *)
Theorem hrv_bins_partition (data : list row) (window : Z) :
  exists bins, data = concat bins
    /\ Forall (fun b => b <> [] /\ bin_ok window b) bins
    /\ calculate_hrv_metrics data window = flat_map bin_output bins.
Proof.
  destruct (hrv_partition window data) as (bins & Hd & Hb & He).
  exists bins. split; [exact Hd|]. split; [|exact He].
  eapply Forall_impl; [|exact Hb]. intros b Hbo.
  split; [|exact Hbo]. destruct b; [contradiction|discriminate].
Qed.

(** X2. Every window [calculate_hrv_metrics] emits ends at most [window]
    minutes after it starts, whatever the order of the input rows. *)
Theorem hrv_window_duration (data : list row) (window : Z) :
  Forall (fun w => End_Time w - Start_Time w <= minutes window)
         (calculate_hrv_metrics data window).
Proof.
  destruct (hrv_partition window data) as (bins & _ & Hb & ->).
  apply Forall_forall. intros w Hw.
  apply in_flat_map in Hw as (b & Hin & Hw).
  rewrite Forall_forall in Hb. exact (bin_output_span window b w (Hb b Hin) Hw).
Qed.

(** X3. The windows use disjoint rows: their [Num_Data_Points] add up to
    at most the number of input rows, and there are at most half as many
    windows as rows (so a frame of fewer than two rows gives none). *)
Theorem hrv_points_bounded (data : list row) (window : Z) :
  (total_points (calculate_hrv_metrics data window) <= length data)%nat
  /\ (2 * length (calculate_hrv_metrics data window) <= length data)%nat.
Proof.
  destruct (hrv_partition window data) as (bins & -> & _ & ->).
  apply flat_map_bin_output_points.
Qed.

(** ** Properties of the PPI helpers of hrv_metrics.py *)

Module PpiHelperFacts.
Import Ppi PpiHelpers.

Lemma diff_ms_some (a : beat) (t : list beat) :
  diff_ms (Some (bTime a)) t
  = map (fun bp => (fst bp, Some (snd bp))) (successive_ppis (a :: t)).
Proof.
  revert a. induction t as [|b t IH]; intros a; [reflexivity|].
  simpl. f_equal. apply IH.
Qed.

Lemma successive_ppis_sorted (l : list beat) :
  Sorted time_le l -> Forall (fun bp => 0 <= snd bp) (successive_ppis l).
Proof.
  induction 1 as [|a t Hs IH Hhd]; [constructor|].
  destruct t as [|b t]; [constructor|].
  inversion Hhd as [|? ? Hab]; subst. unfold time_le in Hab.
  change (successive_ppis (a :: b :: t))
    with ((b, bTime b - bTime a) :: successive_ppis (b :: t)).
  constructor; [simpl; lia|exact IH].
Qed.

Lemma filter_map_some (low high : Z) (l : list (beat * Z)) :
  filter (ppi_in_band low high) (map (fun bp => (fst bp, Some (snd bp))) l)
  = map (fun bp => (fst bp, Some (snd bp))) (filter (in_band low high) l).
Proof.
  induction l as [|[b p] l IH]; [reflexivity|].
  cbn [map filter fst snd].
  change (ppi_in_band low high (b, Some p)) with ((low <=? p) && (p <=? high)).
  change (in_band low high (b, p)) with ((low <=? p) && (p <=? high)).
  destruct ((low <=? p) && (p <=? high)); [cbn [map]; f_equal|]; exact IH.
Qed.

Lemma filter_idem {A : Type} (f : A -> bool) (l : list A) :
  filter f (filter f l) = filter f l.
Proof.
  induction l as [|x l IH]; [reflexivity|].
  simpl. destruct (f x) eqn:E; simpl; [rewrite E|]; now rewrite IH.
Qed.

(** X4. [calculate_ppi] keeps the rows in their order and gives the
    first row a [NaN] PPI and every later row its gap in ms to the row
    before it; on a frame sorted by [Time] no PPI is negative. *)
Theorem calculate_ppi_gaps (df : list beat) :
  calculate_ppi df
  = match df with
    | [] => []
    | a :: _ => (a, None)
                :: map (fun bp => (fst bp, Some (snd bp))) (successive_ppis df)
    end
  /\ (Sorted time_le df -> Forall (fun bp => 0 <= snd bp) (successive_ppis df)).
Proof.
  split; [|apply successive_ppis_sorted].
  destruct df as [|a t]; [reflexivity|].
  unfold calculate_ppi. simpl. f_equal. apply diff_ms_some.
Qed.

Lemma calculate_ppi_gaps_witness :
  Sorted time_le [beat_at 0; beat_at 800]
  /\ Forall (fun bp => 0 <= snd bp) (successive_ppis [beat_at 0; beat_at 800]).
Proof.
  assert (H : Sorted time_le [beat_at 0; beat_at 800]).
  { repeat constructor. unfold time_le. simpl. lia. }
  split; [exact H|].
  exact (proj2 (calculate_ppi_gaps [beat_at 0; beat_at 800]) H).
Defined.

(** X5. [clean_ppi_data] keeps, in order, exactly the rows whose PPI is
    defined and lies in [[low, high]] (rows with a [NaN] PPI are
    removed); the printed count plus the kept rows make up the input;
    and cleaning again removes nothing. *)
Theorem clean_ppi_data_band (low high : Z) (df : list (beat * option Z)) :
  (forall bp, In bp (fst (clean_ppi_data low high df))
              <-> In bp df /\ exists p, snd bp = Some p /\ low <= p <= high)
  /\ (snd (clean_ppi_data low high df)
      + length (fst (clean_ppi_data low high df)) = length df)%nat
  /\ clean_ppi_data low high (fst (clean_ppi_data low high df))
     = (fst (clean_ppi_data low high df), 0%nat).
Proof.
  split; [|split].
  - intros bp. unfold clean_ppi_data. simpl. rewrite filter_In.
    unfold ppi_in_band. destruct (snd bp) as [p|].
    + rewrite andb_true_iff, !Z.leb_le. split.
      * intros [Hin Hb]. split; [exact Hin|]. exists p. split; [reflexivity|lia].
      * intros [Hin (q & Hq & Hb)]. injection Hq as <-. split; [exact Hin|lia].
    + split; [intros [_ H]; discriminate|].
      intros [_ (q & Hq & _)]. discriminate.
  - unfold clean_ppi_data. simpl.
    pose proof (filter_length_le (ppi_in_band low high) df). lia.
  - unfold clean_ppi_data. simpl. rewrite filter_idem. f_equal. lia.
Qed.

End PpiHelperFacts.

(** ** The helpers against the worker's inline cleaning *)

Module PpiPipelineFacts.
Import Ppi PpiHelpers PpiHelperFacts PpiFacts.

(** X6. On a non-empty list of beats, [calculate_ppi] then
    [clean_ppi_data] on the time-sorted beats keep the same rows, with
    the same PPIs, as the inline cleaning of [PPGProcessingWorker.run];
    but the count [clean_ppi_data] prints is one more than the worker's
    [Removed {removed} outlier] count, because it counts the first row
    and its [NaN] PPI. *)
Theorem clean_helpers_match_worker (low high : Z) (beats : list beat)
    (Hne : beats <> []) :
  fst (clean_ppi_data low high (calculate_ppi (sort_by_time beats)))
  = map (fun bp => (fst bp, Some (snd bp))) (fst (clean_ppi low high beats))
  /\ Some (snd (clean_ppi_data low high (calculate_ppi (sort_by_time beats))))
     = option_map S (snd (clean_ppi low high beats)).
Proof.
  destruct beats as [|b0 bs]; [contradiction|].
  pose proof (sort_by_time_perm (b0 :: bs)) as Hp.
  destruct (sort_by_time (b0 :: bs)) as [|a t] eqn:Hs.
  { apply Permutation_sym, Permutation_nil in Hp. discriminate. }
  assert (Hc : calculate_ppi (a :: t)
               = (a, None) :: map (fun bp => (fst bp, Some (snd bp)))
                                  (successive_ppis (a :: t))).
  { unfold calculate_ppi. simpl. f_equal. apply diff_ms_some. }
  assert (Hw : clean_ppi low high (b0 :: bs)
               = (filter (in_band low high) (successive_ppis (a :: t)),
                  Some (length (successive_ppis (a :: t))
                        - length (filter (in_band low high)
                                         (successive_ppis (a :: t))))%nat)).
  { unfold clean_ppi. rewrite Hs, dropna_ppi_column. reflexivity. }
  rewrite Hc, Hw.
  set (s := successive_ppis (a :: t)) in *.
  pose proof (filter_length_le (in_band low high) s) as Hle.
  unfold clean_ppi_data.
  change (filter (ppi_in_band low high) ((a, None) :: ?l))
    with (filter (ppi_in_band low high) l).
  rewrite filter_map_some.
  set (k := filter (in_band low high) s) in *.
  cbv zeta. cbn [fst snd]. split; [reflexivity|].
  cbn [option_map]. f_equal.
  change (length ((a, None) :: ?l)) with (S (length l)).
  rewrite !length_map. lia.
Qed.

Lemma clean_helpers_match_worker_witness :
  [beat_at 0; beat_at 800] <> []
  /\ Some (snd (clean_ppi_data 667 2000
                  (calculate_ppi (sort_by_time [beat_at 0; beat_at 800]))))
     = option_map S (snd (clean_ppi 667 2000 [beat_at 0; beat_at 800])).
Proof.
  assert (H : [beat_at 0; beat_at 800] <> []) by discriminate.
  split; [exact H|].
  exact (proj2 (clean_helpers_match_worker 667 2000 _ H)).
Defined.

End PpiPipelineFacts.

(** ** Further properties of [read_ppg_file] and
    [is_incrementing_sequence] *)

Module IoMoreFacts.
Import Io IoSteps IoFacts.

Lemma in_nonzero_indices (col0 : list Z) (x : nat) :
  In x (nonzero_indices col0) -> nth x col0 0 <> 0.
Proof.
  unfold nonzero_indices. rewrite filter_In. intros [_ H].
  destruct (Z.eqb_spec (nth x col0 0) 0); [discriminate|assumption].
Qed.

(** X9. When the batched branch returns a frame, it has one [datetime]
    entry per row, and the rows before the first non-zero row of the
    first column keep [NaT]. *)
Theorem batched_leading_rows_nat (file_path : String.string) (ncols : nat)
    (col0 : list Z) (folder_given : bool) (info_start_time : option Z)
    (file_mtime : PrimFloat.float) (dts : list (option Z))
    (Hb : is_batched col0 = true)
    (Hread : read_ppg_file file_path ncols col0 folder_given info_start_time
               file_mtime = Frame dts) :
  length dts = length col0
  /\ forall i, (i < length col0)%nat ->
       (forall k, (k <= i)%nat -> nth k col0 0 = 0) -> nth i dts None = None.
Proof.
  unfold read_ppg_file in Hread. cbv beta zeta in Hread.
  destruct (Nat.ltb_spec ncols 5); [discriminate|].
  rewrite Hb, assign_batches_some in Hread.
  destruct (pairs_ok _ _); [injection Hread as <-|discriminate].
  split; [now rewrite length_val_batches, repeat_length|].
  intros i Hi Hz. rewrite nth_val_batches_below.
  - apply nth_repeat.
  - intros x Hx. apply in_app_or in Hx as [Hx|[<-|[]]]; [|exact Hi].
    apply in_nonzero_indices in Hx.
    destruct (Nat.ltb_spec i x) as [|Hle]; [assumption|].
    exfalso. apply Hx, Hz. exact Hle.
  - now rewrite repeat_length.
Qed.

Lemma batched_leading_rows_nat_witness :
  (is_batched Samples.leading_zero_col = true
   /\ read_ppg_file "ppg.csv"%string 5 Samples.leading_zero_col true None
        mtime_example
      = Frame [None; Some 1700000000000000000; Some 1700000000019999981])
  /\ nth 0 [None; Some 1700000000000000000; Some 1700000000019999981] None
     = None.
Proof.
  assert (H1 : is_batched Samples.leading_zero_col = true) by reflexivity.
  assert (H2 : read_ppg_file "ppg.csv"%string 5 Samples.leading_zero_col true
                 None mtime_example
               = Frame [None; Some 1700000000000000000;
                        Some 1700000000019999981])
    by (vm_compute; reflexivity).
  split; [split; [exact H1|exact H2]|].
  apply (proj2 (batched_leading_rows_nat "ppg.csv"%string 5
                  Samples.leading_zero_col true None mtime_example _ H1 H2)
               0%nat); [simpl; lia|].
  intros k Hk. assert (k = 0%nat) by lia. subst. reflexivity.
Defined.

Lemma zsum_firstn_S (l : list Z) (m : nat) :
  zsum (firstn (S m) l) = zsum (firstn m l) + nth m l 0.
Proof.
  revert m. induction l as [|x l IH]; intros m.
  - destruct m; reflexivity.
  - destruct m as [|m].
    + unfold zsum. simpl. lia.
    + change (zsum (firstn (S (S m)) (x :: l)))
        with (x + zsum (firstn (S m) l)).
      change (zsum (firstn (S m) (x :: l))) with (x + zsum (firstn m l)).
      rewrite IH. simpl. lia.
Qed.

Lemma nth_nonneg (l : list Z) (m : nat) :
  Forall (fun v => 0 <= v) l -> 0 <= nth m l 0.
Proof.
  intros H. destruct (Nat.lt_ge_cases m (length l)) as [Hm|Hm].
  - rewrite Forall_forall in H. apply H, nth_In, Hm.
  - rewrite nth_overflow by exact Hm. lia.
Qed.

Lemma zsum_firstn_nonneg (l : list Z) (m : nat) :
  Forall (fun v => 0 <= v) l -> 0 <= zsum (firstn m l).
Proof.
  intros H. induction m as [|m IH]; [reflexivity|].
  rewrite zsum_firstn_S. pose proof (nth_nonneg l m H). lia.
Qed.

Lemma nth_le (l : list Z) (m : nat) (c : Z) :
  0 <= c -> Forall (fun v => v <= c) l -> nth m l 0 <= c.
Proof.
  intros Hc H. destruct (Nat.lt_ge_cases m (length l)) as [Hm|Hm].
  - rewrite Forall_forall in H. apply H, nth_In, Hm.
  - rewrite nth_overflow by exact Hm. exact Hc.
Qed.

Lemma sorted_map_seq_upto (f : nat -> Z) (a n : nat) :
  (forall i, (a <= i)%nat -> (S i < a + n)%nat -> f i <= f (S i)) ->
  Sorted Z.le (map f (seq a n)).
Proof.
  revert a. induction n as [|n IH]; intros a Hf; [constructor|].
  cbn [seq map]. constructor.
  - apply IH. intros i Hi Hn. apply Hf; lia.
  - destruct n as [|n]; constructor. apply Hf; lia.
Qed.

(** When the delta branch returns a frame for non-negative deltas, no
    running sum has wrapped around: the [int64] sums are the exact
    ones. *)
Lemma cum_ms_exact (col0 : list Z) (start_time : Z)
    (Hrange : Forall (fun v => 0 <= v <= 10000) col0)
    (Hok : forall i, In i (seq 0 (length col0)) ->
           ((i =? 0)%nat
            || (in_int64 (cum_ms col0 i * 10 ^ 6)
                && in_int64 (start_time * 10 ^ 9 + cum_ms col0 i * 10 ^ 6)))
           = true) :
  forall i, (i < length col0)%nat ->
    cum_ms col0 i = zsum (firstn (S i) col0)
    /\ 0 <= zsum (firstn (S i) col0) < 2 ^ 63.
Proof.
  assert (Hnn : Forall (fun v => 0 <= v) col0)
    by (eapply Forall_impl; [|exact Hrange]; simpl; lia).
  assert (Hle : Forall (fun v => v <= 10000) col0)
    by (eapply Forall_impl; [|exact Hrange]; simpl; lia).
  assert (Hb : forall i, (i < length col0)%nat ->
                 0 <= zsum (firstn (S i) col0) < 2 ^ 63).
  { induction i as [|i IH]; intros Hi.
    - rewrite zsum_firstn_S. change (zsum (firstn 0 col0)) with 0.
      pose proof (nth_nonneg col0 0 Hnn).
      pose proof (nth_le col0 0 10000 ltac:(lia) Hle). lia.
    - specialize (IH ltac:(lia)).
      rewrite zsum_firstn_S.
      pose proof (nth_nonneg col0 (S i) Hnn).
      pose proof (nth_le col0 (S i) 10000 ltac:(lia) Hle).
      assert (Hbound : zsum (firstn (S i) col0) <= 10000000000000).
      { destruct (Nat.eqb_spec i 0) as [->|Hi0].
        - rewrite zsum_firstn_S. change (zsum (firstn 0 col0)) with 0.
          pose proof (nth_le col0 0 10000 ltac:(lia) Hle). lia.
        - specialize (Hok i (proj2 (in_seq (length col0) 0 i) ltac:(lia))).
          apply Nat.eqb_neq in Hi0. rewrite Hi0 in Hok. cbn [orb] in Hok.
          apply andb_prop in Hok as [Hok _].
          unfold cum_ms in Hok. rewrite wrap64_small in Hok by lia.
          unfold in_int64, i64_max in Hok.
          apply andb_prop in Hok as [_ Hok]. apply Z.leb_le in Hok.
          change (2 ^ 63) with 9223372036854775808 in Hok.
          change (10 ^ 6) with 1000000 in Hok. lia. }
      change (2 ^ 63) with 9223372036854775808. lia. }
  intros i Hi. split; [|exact (Hb i Hi)].
  unfold cum_ms. apply wrap64_small. pose proof (Hb i Hi). lia.
Qed.

(** X10. When the delta branch returns a frame for non-negative deltas
    and an [int64] [start_time], every row is stamped and the stamps
    never go back in time. *)
Theorem delta_rows_nondecreasing (file_path : String.string) (ncols : nat)
    (col0 : list Z) (folder_given : bool) (start_time : Z)
    (file_mtime : PrimFloat.float) (dts : list (option Z))
    (Hread : read_ppg_file file_path ncols col0 folder_given (Some start_time)
               file_mtime = Frame dts)
    (Hne : col0 <> [])
    (Hrange : Forall (fun v => 0 <= v <= 10000) col0)
    (HS : 0 <= start_time < 2 ^ 63) :
  exists ts, dts = map Some ts /\ length ts = length col0 /\ Sorted Z.le ts.
Proof.
  assert (Hsmall : Forall (fun v => v <= 10000) col0)
    by (eapply Forall_impl; [|exact Hrange]; simpl; lia).
  assert (Hnn : Forall (fun v => 0 <= v) col0)
    by (eapply Forall_impl; [|exact Hrange]; simpl; lia).
  destruct (Nat.ltb_spec ncols 5) as [Hc|Hc].
  { unfold read_ppg_file in Hread. cbv beta zeta in Hread.
    destruct (Nat.ltb_spec ncols 5); [discriminate|lia]. }
  rewrite read_delta in Hread by assumption.
  destruct (_ && _) eqn:Hok; [injection Hread as <-|discriminate].
  apply andb_prop in Hok as [_ Hok]. rewrite forallb_forall in Hok.
  pose proof (cum_ms_exact col0 start_time Hrange Hok) as Hex.
  set (f := fun i => start_time * 10 ^ 9
                     + if (i =? 0)%nat then 0 else cum_ms col0 i * 10 ^ 6).
  exists (map f (seq 0 (length col0))). split; [|split].
  - now rewrite map_map.
  - now rewrite length_map, length_seq.
  - apply sorted_map_seq_upto. intros i _ Hi. unfold f.
    destruct (Hex (S i) ltac:(lia)) as [E1 _]. rewrite E1.
    rewrite (zsum_firstn_S col0 (S i)).
    pose proof (nth_nonneg col0 (S i) Hnn).
    destruct (Nat.eqb_spec i 0) as [->|Hi0]; cbn [Nat.eqb].
    + pose proof (zsum_firstn_nonneg col0 1 Hnn). lia.
    + destruct (Hex i ltac:(lia)) as [E0 _]. rewrite E0. lia.
Qed.

Lemma delta_rows_nondecreasing_witness :
  (read_ppg_file "ppg.csv"%string 5 uniform_deltas true (Some 1700000000)
     mtime_example
   = Frame (map (fun i => Some (1700000000 * 10 ^ 9 + 10 ^ 9 * Z.of_nat i))
                (seq 0 11))
   /\ uniform_deltas <> []
   /\ Forall (fun v => 0 <= v <= 10000) uniform_deltas
   /\ 0 <= 1700000000 < 2 ^ 63)
  /\ exists ts,
       map (fun i => Some (1700000000 * 10 ^ 9 + 10 ^ 9 * Z.of_nat i))
           (seq 0 11) = map Some ts
       /\ Sorted Z.le ts.
Proof.
  assert (H1 : read_ppg_file "ppg.csv"%string 5 uniform_deltas true
                 (Some 1700000000) mtime_example
               = Frame (map (fun i => Some (1700000000 * 10 ^ 9
                                            + 10 ^ 9 * Z.of_nat i))
                            (seq 0 11)))
    by (vm_compute; reflexivity).
  assert (H2 : uniform_deltas <> []) by discriminate.
  assert (H3 : Forall (fun v => 0 <= v <= 10000) uniform_deltas)
    by (unfold uniform_deltas; simpl; repeat constructor; lia).
  assert (H4 : 0 <= 1700000000 < 2 ^ 63) by lia.
  split; [split; [exact H1|split; [exact H2|split; [exact H3|exact H4]]]|].
  destruct (delta_rows_nondecreasing "ppg.csv"%string 5 uniform_deltas true
              1700000000 mtime_example _ H1 H2 H3 H4) as (ts & E & _ & Hs).
  exists ts. split; [exact E|exact Hs].
Defined.








End IoMoreFacts.

(** ** Properties of the folder selection and the folder loop *)

Module DirectoryFacts.
Import Directory.


Lemma insert_entry_perm (e : entry) (l : list entry) :
  Permutation (e :: l) (insert_entry e l).
Proof.
  induction l as [|f l IH]; simpl; [reflexivity|].
  destruct (String.leb (entry_name e) (entry_name f)); [reflexivity|].
  rewrite perm_swap. now apply perm_skip.
Qed.

Lemma sort_entries_perm (l : list entry) : Permutation l (sort_entries l).
Proof.
  induction l as [|e l IH]; simpl; [reflexivity|].
  rewrite <- insert_entry_perm. now apply perm_skip.
Qed.





Lemma folder_loop_abort (sh sm eh em : Z) (R : Type)
    (pf : R -> String.string -> list (option Z) -> R)
    (Herr : range_config_error sh sm eh em = true)
    (folders : list entry) (results : R) :
  (exists f dts, In f folders /\ ppg_exists f = true
                 /\ ppg_read f = Io.Frame dts) ->
  folder_loop (Some (sh, sm, eh, em)) R pf folders results = None.
Proof.
  revert results. induction folders as [|g rest IH]; intros results
    (f & dts & Hin & He & Hr); [destruct Hin|].
  simpl. destruct Hin as [->|Hin].
  - rewrite He, Hr. simpl. now rewrite Herr.
  - destruct (ppg_exists g); simpl.
    + destruct (ppg_read g).
      * apply IH. now exists f, dts.
      * now rewrite Herr.
    + apply IH. now exists f, dts.
Qed.

(** X12. [BatchWorker._process_participant] gets no result ([None], the
    participant is left out) whenever none of the participant's session
    folders has an all-digit name: [_process_directory] only looks at
    numeric subfolders.  So the layout of the [BatchWorker] docstring,
    with sessions [Epoch1] and [Epoch2], contributes nothing. *)
Theorem participant_needs_numeric_sessions
    (cfg : option (Z * Z * Z * Z)) (R : Type) (init : R)
    (pf : R -> String.string -> list (option Z) -> R)
    (calculate_combined add_participant : R -> R) (sessions : list entry)
    (Hnames : forall e, In e sessions -> entry_is_dir e = true ->
                        isdigit (entry_name e) = false) :
  process_participant cfg R init pf calculate_combined add_participant sessions
  = None.
Proof.
  unfold process_participant, process_directory.
  destruct (filter entry_is_dir sessions) as [|s0 ss]; [reflexivity|].
  rewrite (filter_ext_in _ (fun _ => false)).
  - now rewrite filter_false.
  - intros e0 Hin. destruct (entry_is_dir e0) eqn:Hd; [|reflexivity].
    simpl. now apply Hnames.
Qed.

Lemma participant_needs_numeric_sessions_witness :
  (forall e, In e epoch_sessions -> entry_is_dir e = true ->
             isdigit (entry_name e) = false)
  /\ process_participant None nat 0%nat (fun r _ dts => r + length dts)%nat
       (fun r => r) (fun r => r) epoch_sessions
     = None.
Proof.
  assert (H : forall e, In e epoch_sessions -> entry_is_dir e = true ->
                        isdigit (entry_name e) = false)
    by (intros e [<-|[<-|[]]] _; reflexivity).
  split; [exact H|].
  exact (participant_needs_numeric_sessions None nat 0%nat
           (fun r _ dts => r + length dts)%nat (fun r => r) (fun r => r)
           epoch_sessions H).
Defined.

(** X13. The directory worker's configuration test is the error of the
    time-of-day filter, and it aborts the whole directory: when it fires
    and at least one numeric subfolder holds a readable [ppg.csv],
    [_process_directory] returns [None], discarding what the folders
    processed before had contributed. *)
Theorem config_error_discards_directory (sh sm eh em : Z) (R : Type)
    (init : R) (pf : R -> String.string -> list (option Z) -> R)
    (calculate_combined : R -> R) (entries : list entry) :
  (forall index, TimeRange.filter_time_range sh sm eh em index
                 = TimeRange.ConfigError
                 <-> range_config_error sh sm eh em = true)
  /\ (range_config_error sh sm eh em = true ->
      (exists e dts, In e entries /\ entry_is_dir e = true
                     /\ isdigit (entry_name e) = true
                     /\ ppg_exists e = true /\ ppg_read e = Io.Frame dts) ->
      process_directory (Some (sh, sm, eh, em)) R init pf calculate_combined
        entries = None).
Proof.
  split.
  - intros index. unfold TimeRange.filter_time_range, range_config_error.
    destruct (_ <? _); [split; reflexivity|].
    split; [|discriminate].
    destruct (filter _ _); discriminate.
  - intros Herr (e & dts & Hin & Hd & Hn & He & Hr).
    unfold process_directory.
    assert (Hf : In e (filter (fun e => entry_is_dir e && isdigit (entry_name e))
                              entries))
      by (apply filter_In; split; [exact Hin|now rewrite Hd, Hn]).
    destruct (filter _ entries) as [|g l] eqn:Hl; [destruct Hf|].
    rewrite folder_loop_abort; [reflexivity|exact Herr|].
    exists e, dts. split; [|split; assumption].
    apply (Permutation_in _ (sort_entries_perm (g :: l))). exact Hf.
Qed.

Lemma config_error_discards_directory_witness :
  (range_config_error 5 0 22 0 = true
   /\ exists e dts, In e Samples.numbered_sessions /\ entry_is_dir e = true
                    /\ isdigit (entry_name e) = true
                    /\ ppg_exists e = true /\ ppg_read e = Io.Frame dts)
  /\ process_directory (Some (5, 0, 22, 0)) nat 0%nat
       (fun r _ dts => r + length dts)%nat (fun r => r)
       Samples.numbered_sessions = None.
Proof.
  assert (H1 : range_config_error 5 0 22 0 = true) by reflexivity.
  assert (H2 : exists e dts, In e Samples.numbered_sessions
                 /\ entry_is_dir e = true /\ isdigit (entry_name e) = true
                 /\ ppg_exists e = true /\ ppg_read e = Io.Frame dts).
  { exists (mkEntry "9" true true (Io.Frame [Some 0])), [Some 0].
    split; [now left|]. repeat split. }
  split; [split; [exact H1|exact H2]|].
  exact (proj2 (config_error_discards_directory 5 0 22 0 nat 0%nat
                  (fun r _ dts => r + length dts)%nat (fun r => r)
                  Samples.numbered_sessions) H1 H2).
Defined.



End DirectoryFacts.
